(** * FXPUtil: preset header codec, signature store, resolver and comparator

    A shallow embedding of the core functions of [FXPUtil.py]
    ([_load_signatures], [_read_header], [GetCode], [GetName], [GetCompany],
    [ForceGetCode], [SetCode], [AddToDatabase], [RemoveFromDatabase],
    [EditDatabase], [FetchDatabase], [Compare]) together with the Python
    built-ins they call, and the properties of the specification and of the
    code stated over them.

    Modelling decisions.
    - A Python [str] is a list of code points ([N]); [bytes] is a list of
      [byte].  [str.encode('utf-8')] and [bytes.decode('utf-8')] are partial:
      they raise on lone surrogates, respectively on ill-formed input.
    - The file system is a finite map from paths to nodes (directory or
      regular file with its content).  Opening an existing regular file
      always succeeds: permission and device errors are outside the model.
    - [signatures.json] is kept apart from the preset files and is
      represented by what [json.load] makes of it: the file is missing, its
      text is not JSON, or it holds a list of records with the three string
      fields.  [json.dump] followed by [json.load] is taken to be the
      identity on such lists.
    - Exceptions are explicit: a function whose Python body can leave through
      an uncaught exception returns an [outcome].

    Limits of the model.  A world holds one state of the table, so a file
    with JSON of another shape than a list of such records has no world;
    the table is not reachable as a preset path (the path [signatures.json]
    given to [SetCode] or [ForceGetCode]), and a path stands for one file (a
    second spelling of the path of a file is another key).  [json.dump]
    followed by [json.load] is the identity only on text without a high
    surrogate directly followed by a low one.  The properties below are
    statements about the worlds of this model. *)

From Stdlib Require Import ZArith NArith Lia List Bool Sorting.Sorted.
From Stdlib Require Import Strings.Byte Strings.String Strings.Ascii.
From stdpp Require Import base option list gmap.

Local Open Scope N_scope.

(** ** Python values *)

Abbreviation str := (list N).
Abbreviation bytes := (list byte).

#[global] Instance byte_eq_dec : EqDecision byte := Byte.byte_eq_dec.

(** Literals: the code points, respectively the bytes, of an ASCII text. *)
Definition py (s : string) : str := map N_of_ascii (list_ascii_of_string s).
Definition lit (s : string) : bytes := list_byte_of_string s.

Definition byte_of_N (n : N) : byte :=
  match Byte.of_N n with Some x => x | None => x00 end.

Inductive exn :=
| FileNotFoundError
| IsADirectoryError
| JSONDecodeError
| UnicodeEncodeError
| UnicodeDecodeError
| IndexError.

Inductive outcome (A : Type) :=
| Return (a : A)
| Raise (e : exn).
Arguments Return {A} a.
Arguments Raise {A} e.

#[global] Instance outcome_bind : MBind outcome := fun A B k m =>
  match m with
  | Return a => k a
  | Raise e => Raise e
  end.

(** [try: m except: return d] with a bare [except]. *)
Definition try_except {A} (m : outcome A) (d : A) : A :=
  match m with
  | Return a => a
  | Raise _ => d
  end.

(** ** Built-ins on [str] and [bytes] *)

Module Py.

(** [str.isspace] on one code point: the characters [str.strip] removes. *)
Definition isspace (c : N) : bool :=
  ((9 <=? c) && (c <=? 13)) || ((28 <=? c) && (c <=? 32))
  || (c =? 133) || (c =? 160) || (c =? 5760)
  || ((8192 <=? c) && (c <=? 8202))
  || (c =? 8232) || (c =? 8233) || (c =? 8239) || (c =? 8287)
  || (c =? 12288).

Fixpoint lstrip (s : str) : str :=
  match s with
  | c :: s' => if isspace c then lstrip s' else s
  | [] => []
  end.

Definition rstrip (s : str) : str := rev (lstrip (rev s)).

Definition strip (s : str) : str := rstrip (lstrip s).

(** [str.lower], on the letters A..Z.  The source only asks whether the
    lowered path ends with [.fxp] or [.fxb], and no code point other than
    these letters lowers to a character of the two suffixes, so that the
    answer is the one of the full Unicode mapping. *)
Definition lower_char (c : N) : N :=
  if (65 <=? c) && (c <=? 90) then c + 32 else c.

Definition lower (s : str) : str := map lower_char s.

Definition str_eqb (s t : str) : bool := bool_decide (s = t).

Definition endswith (s suffix : str) : bool :=
  str_eqb (drop (length s - length suffix)%nat s) suffix
  && (length suffix <=? length s)%nat.

(** [s.endswith((t1, t2, ...))] *)
Definition endswith_any (s : str) (suffixes : list str) : bool :=
  existsb (endswith s) suffixes.

(** [str.encode('utf-8')] of one code point; [None] is UnicodeEncodeError. *)
Definition encode_char (c : N) : option bytes :=
  if c <? 128 then Some [byte_of_N c]
  else if c <? 2048 then
    Some [byte_of_N (192 + N.shiftr c 6); byte_of_N (128 + N.land c 63)]
  else if c <? 65536 then
    if (55296 <=? c) && (c <=? 57343) then None
    else Some [byte_of_N (224 + N.shiftr c 12);
               byte_of_N (128 + N.land (N.shiftr c 6) 63);
               byte_of_N (128 + N.land c 63)]
  else if c <? 1114112 then
    Some [byte_of_N (240 + N.shiftr c 18);
          byte_of_N (128 + N.land (N.shiftr c 12) 63);
          byte_of_N (128 + N.land (N.shiftr c 6) 63);
          byte_of_N (128 + N.land c 63)]
  else None.

Fixpoint encode_opt (s : str) : option bytes :=
  match s with
  | [] => Some []
  | c :: s' =>
      match encode_char c, encode_opt s' with
      | Some x, Some y => Some (x ++ y)
      | _, _ => None
      end
  end.

Definition encode (s : str) : outcome bytes :=
  match encode_opt s with
  | Some x => Return x
  | None => Raise UnicodeEncodeError
  end.

Definition between (lo x hi : N) : bool := (lo <=? x) && (x <=? hi).
Definition cont (x : N) : bool := between 128 x 191.
Definition low6 (x : N) : N := N.land x 63.

(** [bytes.decode('utf-8')], strict: well-formed sequences only (no
    overlong forms, no surrogates, nothing above U+10FFFF). *)
Fixpoint decode_opt (l : bytes) : option str :=
  match l with
  | [] => Some []
  | x0 :: t0 =>
      let b0 := Byte.to_N x0 in
      if b0 <? 128 then cons b0 <$> decode_opt t0
      else if between 194 b0 223 then
        match t0 with
        | x1 :: t1 =>
            let b1 := Byte.to_N x1 in
            if cont b1
            then cons (N.shiftl (N.land b0 31) 6 + low6 b1) <$> decode_opt t1
            else None
        | _ => None
        end
      else if between 224 b0 239 then
        match t0 with
        | x1 :: x2 :: t2 =>
            let b1 := Byte.to_N x1 in
            let b2 := Byte.to_N x2 in
            if between (if b0 =? 224 then 160 else 128) b1
                       (if b0 =? 237 then 159 else 191) && cont b2
            then cons (N.shiftl (N.land b0 15) 12 + N.shiftl (low6 b1) 6
                       + low6 b2) <$> decode_opt t2
            else None
        | _ => None
        end
      else if between 240 b0 244 then
        match t0 with
        | x1 :: x2 :: x3 :: t3 =>
            let b1 := Byte.to_N x1 in
            let b2 := Byte.to_N x2 in
            let b3 := Byte.to_N x3 in
            if between (if b0 =? 240 then 144 else 128) b1
                       (if b0 =? 244 then 143 else 191)
               && cont b2 && cont b3
            then cons (N.shiftl (N.land b0 7) 18 + N.shiftl (low6 b1) 12
                       + N.shiftl (low6 b2) 6 + low6 b3) <$> decode_opt t3
            else None
        | _ => None
        end
      else None
  end.

Definition decode (l : bytes) : outcome str :=
  match decode_opt l with
  | Some s => Return s
  | None => Raise UnicodeDecodeError
  end.

(** [needle in hay] on bytes: a contiguous occurrence; the empty needle
    occurs everywhere. *)
Fixpoint startswith (hay needle : bytes) {struct needle} : bool :=
  match needle, hay with
  | [], _ => true
  | x :: needle', y :: hay' => Byte.eqb x y && startswith hay' needle'
  | _ :: _, [] => false
  end.

Fixpoint contains (hay needle : bytes) : bool :=
  startswith hay needle
  || match hay with
     | [] => false
     | _ :: hay' => contains hay' needle
     end.

Definition bytes_eqb (x y : bytes) : bool := bool_decide (x = y).

End Py.

(** ** The environment: preset files and the signature table *)

Inductive node :=
| Directory
| Regular (content : bytes).

(** One entry of [signatures.json]. *)
Record plugin := Plugin { code : str; name : str; company : str }.

#[global] Instance plugin_eq_dec : EqDecision plugin.
Proof. solve_decision. Defined.

Inductive sigfile :=
| Missing
| NotJson
| Table (data : list plugin).

Record world := World { files : gmap str node; signatures_json : sigfile }.

Definition isfile (w : world) (file_path : str) : bool :=
  match files w !! file_path with
  | Some (Regular _) => true
  | _ => false
  end.

(** [open(path, 'rb')] followed by [read()]. *)
Definition read_all (w : world) (file_path : str) : outcome bytes :=
  match files w !! file_path with
  | Some (Regular content) => Return content
  | Some Directory => Raise IsADirectoryError
  | None => Raise FileNotFoundError
  end.

(** [open(path, 'rb')] followed by [read(n)]. *)
Definition read_n (w : world) (file_path : str) (n : nat) : outcome bytes :=
  content ← read_all w file_path; Return (take n content).

(** [open(path, 'wb')] followed by [write(data)]. *)
Definition write_all (w : world) (file_path : str) (data : bytes)
  : outcome world :=
  match files w !! file_path with
  | Some Directory => Raise IsADirectoryError
  | _ => Return (World (<[file_path := Regular data]> (files w))
                       (signatures_json w))
  end.

(** [json.load(open('signatures.json', 'r'))] *)
Definition json_load (w : world) : outcome (list plugin) :=
  match signatures_json w with
  | Missing => Raise FileNotFoundError
  | NotJson => Raise JSONDecodeError
  | Table data => Return data
  end.

(** [json.dump(data, open('signatures.json', 'w'), indent=4)] *)
Definition json_dump (w : world) (data : list plugin) : outcome world :=
  Return (World (files w) (Table data)).

(** ** The functions of FXPUtil.py *)

Definition _load_signatures (w : world) : outcome (option (list plugin)) :=
  match json_load w with
  | Return data => Return (Some data)
  | Raise FileNotFoundError => Return None
  | Raise e => Raise e
  end.

Definition magic : bytes := lit "CcnK".

Definition _read_header (w : world) (file_path : str) : option bytes :=
  if negb (isfile w file_path) then None
  else if negb (Py.endswith_any (Py.lower file_path) [py ".fxp"; py ".fxb"])
  then None
  else
    try_except
      (header_bytes ← read_n w file_path 20;
       if negb (Py.bytes_eqb (take 4 header_bytes) magic) then Return None
       else Return (Some header_bytes))
      None.

(** [plugin['code'].strip()] *)
Definition stripped_code (entry : plugin) : str := Py.strip (code entry).

(** The body shared by [GetCompany], [GetCode] and [GetName]: the loop over
    the table; the three differ only in the field they return. *)
Fixpoint scan (field : plugin -> str) (header : bytes)
    (signatures : list plugin) : outcome (option str) :=
  match signatures with
  | [] => Return None
  | plugin :: rest =>
      c ← Py.encode (stripped_code plugin);
      if Py.contains header c then Return (Some (Py.strip (field plugin)))
      else scan field header rest
  end.

Definition resolve (field : plugin -> str) (w : world) (file_path : str)
  : outcome (option str) :=
  match _read_header w file_path with
  | None | Some [] => Return None
  | Some header =>
      signatures ← _load_signatures w;
      match signatures with
      | None | Some [] => Return None
      | Some signatures => scan field header signatures
      end
  end.

Definition GetCompany : world -> str -> outcome (option str) := resolve company.

Definition GetVendor : world -> str -> outcome (option str) := GetCompany.

Definition GetCode : world -> str -> outcome (option str) := resolve code.

Definition GetName : world -> str -> outcome (option str) := resolve name.

Definition ForceGetCode (w : world) (file_path : str) : option str :=
  if negb (isfile w file_path) then None
  else
    try_except
      (content ← read_all w file_path;
       if (length content <? 20)%nat then Return None
       else s ← Py.decode (drop 16 (take 20 content)); Return (Some s))
      None.

Definition SetCode (w : world) (file_path new_code : str) : bool * world :=
  if negb (length new_code =? 4)%nat then (false, w)
  else if negb (isfile w file_path) then (false, w)
  else
    try_except
      (content ← read_all w file_path;
       if (length content <? 20)%nat then Return (false, w)
       else
         new_code_bytes ← Py.encode new_code;
         let modified := take 16 content ++ new_code_bytes ++ drop 20 content in
         w' ← write_all w file_path modified;
         Return (true, w'))
      (false, w).

(** [not s] on a [str] *)
Definition empty (s : str) : bool :=
  match s with [] => true | _ => false end.

(** [x or []] on the result of [_load_signatures] *)
Definition or_empty (x : option (list plugin)) : list plugin :=
  match x with
  | None | Some [] => []
  | Some data => data
  end.

Definition AddToDatabase (w : world) (code name company : str)
  : bool * world :=
  if empty code || negb (length code =? 4)%nat || empty name || empty company
  then (false, w)
  else
    try_except
      (loaded ← _load_signatures w;
       let data := or_empty loaded in
       let data := data ++ [Plugin (Py.strip code) (Py.strip name)
                                   (Py.strip company)] in
       w' ← json_dump w data;
       Return (true, w'))
      (false, w).

Definition RemoveFromDatabase (w : world) (code : str) : bool * world :=
  try_except
    (data ← _load_signatures w;
     match data with
     | None | Some [] => Return (false, w)
     | Some data =>
         let filtered :=
           filter (fun entry => stripped_code entry ≠ Py.strip code) data in
         if (length filtered =? length data)%nat then Return (false, w)
         else
           w' ← json_dump w filtered;
           Return (true, w')
     end)
    (false, w).

Definition FetchDatabase (w : world) : outcome (option (list plugin)) :=
  _load_signatures w.

(** The dictionary [Compare] builds. *)
Record identity := Identity {
  id_code : option str;
  id_company : option str;
  id_name : option str
}.

Record comparison := Comparison {
  differences : list (Z * Z * Z * Z);
  same_code : bool;
  same_company : bool;
  same_plugin : bool;
  total_different_bytes : Z;
  file1 : identity;
  file2 : identity
}.

(** [b[i]] on bytes: the value of the byte as an integer. *)
Definition getitem (b : bytes) (i : nat) : outcome Z :=
  match b !! i with
  | Some x => Return (Z.of_N (Byte.to_N x))
  | None => Raise IndexError
  end.

(** The two statements of the [if byte1 != byte2] branch. *)
Definition record_difference (result : comparison) (d : Z * Z * Z * Z)
  : comparison :=
  Comparison (differences result ++ [d])
             (same_code result) (same_company result) (same_plugin result)
             (total_different_bytes result + 1)
             (file1 result) (file2 result).

(** One turn of [for i in range(bytes_to_compare)]. *)
Definition compare_step (bytes1 bytes2 : bytes) (acc : outcome comparison)
    (i : nat) : outcome comparison :=
  result ← acc;
  byte1 ← getitem bytes1 i;
  byte2 ← getitem bytes2 i;
  if negb (byte1 =? byte2)%Z then
    let difference := (byte1 - byte2)%Z in
    Return (record_difference result (Z.of_nat i, byte1, byte2, difference))
  else Return result.

Definition set_same_flags (result : comparison) : comparison :=
  Comparison (differences result)
             (bool_decide (id_code (file1 result) = id_code (file2 result)))
             (bool_decide
                (id_company (file1 result) = id_company (file2 result)))
             (bool_decide (id_name (file1 result) = id_name (file2 result)))
             (total_different_bytes result)
             (file1 result) (file2 result).

Definition is_IOError (e : exn) : bool :=
  match e with
  | FileNotFoundError | IsADirectoryError => true
  | _ => false
  end.

(** [not header] on the result of [_read_header] *)
Definition no_header (header : option bytes) : bool :=
  match header with
  | None | Some [] => true
  | Some _ => false
  end.

Definition Compare (w : world) (file1_path file2_path : str)
    (num_bytes_to_compare : Z) : outcome comparison :=
  code1 ← GetCode w file1_path;
  company1 ← GetCompany w file1_path;
  name1 ← GetName w file1_path;
  code2 ← GetCode w file2_path;
  company2 ← GetCompany w file2_path;
  name2 ← GetName w file2_path;
  let result :=
    Comparison [] false false false 0
               (Identity code1 company1 name1)
               (Identity code2 company2 name2) in
  if no_header (_read_header w file1_path)
     || no_header (_read_header w file2_path)
  then Return result
  else
    let result := set_same_flags result in
    match (bytes1 ← read_all w file1_path;
           bytes2 ← read_all w file2_path;
           Return (bytes1, bytes2)) with
    | Raise e => if is_IOError e then Return result else Raise e
    | Return (bytes1, bytes2) =>
        let smaller_size :=
          Z.min (Z.of_nat (length bytes1)) (Z.of_nat (length bytes2)) in
        let bytes_to_compare := Z.min smaller_size num_bytes_to_compare in
        fold_left (compare_step bytes1 bytes2)
                  (seq 0 (Z.to_nat bytes_to_compare)) (Return result)
    end.

(** ** Predicates and functions of the specification *)

(** [needle] occurs in [hay] as a contiguous run of bytes. *)
Definition occurs (needle hay : bytes) : Prop :=
  ∃ pre post, hay = pre ++ needle ++ post.

(** The trimmed code of the record has an encoding that occurs in the
    header. *)
Definition matches (header : bytes) (p : plugin) : Prop :=
  ∃ c, Py.encode_opt (stripped_code p) = Some c ∧ occurs c header.

(** The text of every code can be encoded (none holds a lone surrogate). *)
Definition encodable (table : list plugin) : Prop :=
  Forall (λ p, is_Some (Py.encode_opt (stripped_code p))) table.

(** The table a world holds, empty when there is none. *)
Definition table_of (w : world) : list plugin :=
  match signatures_json w with
  | Table data => data
  | _ => []
  end.

(** The signature table can be loaded and searched without an exception. *)
Definition store_loads (w : world) : Prop :=
  match signatures_json w with
  | NotJson => False
  | Missing => True
  | Table data => encodable data
  end.

Definition byte_val (x : byte) : Z := Z.of_N (Byte.to_N x).

(** The difference list in the words of the specification: walking the two
    byte strings side by side from index [i] on, one entry
    [(index, byteA, byteB, byteA - byteB)] for each place where they differ. *)
Fixpoint byte_differences (i : nat) (A B : bytes) : list (Z * Z * Z * Z) :=
  match A, B with
  | a :: A', b :: B' =>
      (if decide (a = b) then []
       else [(Z.of_nat i, byte_val a, byte_val b, (byte_val a - byte_val b)%Z)])
      ++ byte_differences (S i) A' B'
  | _, _ => []
  end.

Definition index_of (d : Z * Z * Z * Z) : Z := d.1.1.1.

(** [result] after the loop has recorded the entries [ds]. *)
Definition add_differences (result : comparison) (ds : list (Z * Z * Z * Z))
  : comparison :=
  Comparison (differences result ++ ds)
             (same_code result) (same_company result) (same_plugin result)
             (total_different_bytes result + Z.of_nat (length ds))
             (file1 result) (file2 result).

(** [content[16:20]], the identifier field. *)
Definition code_field (content : bytes) : bytes := drop 16 (take 20 content).

(** ** Concrete files and tables *)

(** A preset whose identifier field holds [QQQQ] while [AAAA] sits in the
    opaque region, and a table whose second record has the code [AAAA]. *)
Definition loose_preset : bytes := lit "CcnKAAAA00000000QQQQpayload".

Definition loose_table : list plugin :=
  [Plugin (py "ZZZZ") (py "Other") (py "Nobody");
   Plugin (py "AAAA") (py "X") (py "Y")].

Definition loose_world : world :=
  World {[ py "p.fxp" := Regular loose_preset ]} (Table loose_table).

(** The same preset next to a signatures file whose text is not JSON. *)
Definition broken_world : world :=
  World {[ py "p.fxp" := Regular loose_preset ]} NotJson.

(** An 8-byte preset and a longer one that differs from it at offsets 5 and
    7 (and beyond the end of the shorter). *)
Definition left_preset : bytes := lit "CcnKabcd".

Definition right_preset : bytes := lit "CcnKaXcYzzzz".

Definition compare_world : world :=
  World (<[ py "l.fxp" := Regular left_preset ]>
           {[ py "r.fxb" := Regular right_preset ]})
        Missing.

(** A nine-byte file with a preset extension that starts with the magic. *)
Definition short_preset : bytes := lit "CcnKabcde".

Definition short_world : world :=
  World {[ py "a.fxp" := Regular short_preset ]} Missing.

(** A 20-byte preset whose identifier field is not UTF-8, and one whose
    identifier field holds two two-byte characters. *)
Definition garbled_preset : bytes :=
  lit "CcnK000000000000" ++ [xff; xff; xff; xff].

Definition accented_preset : bytes :=
  lit "CcnK000000000000" ++ [xc3; xa9; xc3; xa9].

Definition garbled_world : world :=
  World (<[ py "g.fxp" := Regular garbled_preset ]>
           {[ py "e.fxp" := Regular accented_preset ]})
        Missing.

(** A file that is no preset (no magic, no preset extension) but long
    enough, a file that is too short, and a directory. *)
Definition raw_world : world :=
  World (<[ py "notes.txt" := Regular (lit "0123456789abcdefWXYZ and more") ]>
           (<[ py "tiny.fxp" := Regular (lit "CcnK") ]>
              {[ py "dir" := Directory ]}))
        NotJson.

(** The code [éééé]: four characters, eight bytes in UTF-8. *)
Definition accent_code : str := [233; 233; 233; 233].

(** ** [EditDatabase] *)

(** The loop of [EditDatabase] over the loaded table: the first entry whose
    trimmed code is the trimmed [code] gets the three new trimmed fields, the
    entries after it are not looked at; [None] when the loop ends without a
    match. *)
Fixpoint edit_first (data : list plugin) (code newcode newname newcompany : str)
  : option (list plugin) :=
  match data with
  | [] => None
  | entry :: rest =>
      if decide (stripped_code entry = Py.strip code)
      then Some (Plugin (Py.strip newcode) (Py.strip newname)
                        (Py.strip newcompany) :: rest)
      else cons entry <$> edit_first rest code newcode newname newcompany
  end.

Definition EditDatabase (w : world) (code newcode newname newcompany : str)
  : bool * world :=
  if empty newcode || negb (length newcode =? 4)%nat
     || empty newname || empty newcompany
  then (false, w)
  else
    try_except
      (data ← _load_signatures w;
       match data with
       | None | Some [] => Return (false, w)
       | Some data =>
           match edit_first data code newcode newname newcompany with
           | Some data' =>
               w' ← json_dump w data';
               Return (true, w')
           | None => Return (false, w)
           end
       end)
      (false, w).

(** ** Further predicates of the properties *)

(** The path ends with [.fxp] or [.fxb], in any mix of upper and lower
    case. *)
Definition preset_extension (file_path : str) : Prop :=
  ∃ stem d f x e,
    file_path = stem ++ [d; f; x; e]
    ∧ d = 46
    ∧ (f = 102 ∨ f = 70)
    ∧ (x = 120 ∨ x = 88)
    ∧ (e = 112 ∨ e = 80 ∨ e = 98 ∨ e = 66).

(** A text that is empty or starts with a character that is no space. *)
Definition headed (s : str) : Prop :=
  match s with
  | [] => True
  | c :: _ => Py.isspace c = false
  end.


(** ** Further concrete files and tables *)

(** A preset whose extension is written in mixed case. *)
Definition mixed_case_world : world :=
  World {[ py "Lead.FxB" := Regular loose_preset ]} (Table loose_table).

(** A file that is no preset, next to a signatures file that is not JSON. *)
Definition stray_world : world :=
  World {[ py "notes.txt" := Regular (lit "CcnK and the rest of the notes") ]}
        NotJson.

(** A table whose first code holds a lone surrogate (U+D800). *)
Definition surrogate_table : list plugin :=
  [Plugin [55296; 65; 65; 65] (py "Broken") (py "Nobody");
   Plugin (py "AAAA") (py "X") (py "Y")].

Definition surrogate_world : world :=
  World {[ py "p.fxp" := Regular loose_preset ]} (Table surrogate_table).

(** A preset of 27 bytes and an empty table. *)
Definition patch_world : world :=
  World (<[ py "p.fxp" := Regular loose_preset ]>
           {[ py "q.fxp" := Regular short_preset ]})
        (Table [Plugin (py "Done") (py "Synth") (py "Maker")]).

(** The record [AddToDatabase] and [EditDatabase] write for their
    arguments. *)
Definition trimmed (code name company : str) : plugin :=
  Plugin (Py.strip code) (Py.strip name) (Py.strip company).

(** A table with three records, two of them with the code [Dupl]. *)
Definition edit_table : list plugin :=
  [Plugin (py "Solo") (py "One") (py "Co");
   Plugin (py "Dupl") (py "Two") (py "Co");
   Plugin (py "Dupl") (py "Three") (py "Co")].

Definition edit_world : world :=
  World {[ py "p.fxp" := Regular loose_preset ]} (Table edit_table).

(** The result [Compare] starts from: nothing compared yet. *)
Definition blank_comparison (id1 id2 : identity) : comparison :=
  Comparison [] false false false 0 id1 id2.

(** The number of leading bytes [Compare] looks at. *)
Definition compared (A B : bytes) (byteCount : Z) : nat :=
  Z.to_nat (Z.min (Z.min (Z.of_nat (length A)) (Z.of_nat (length B)))
                  byteCount).

(** A record whose three fields carry no surrounding whitespace and whose
    code has at most four characters. *)
Definition well_trimmed (r : plugin) : Prop :=
  Py.strip (code r) = code r
  ∧ Py.strip (name r) = name r
  ∧ Py.strip (company r) = company r
  ∧ (length (code r) ≤ 4)%nat.

(** ** Predicates written with [Py.strip] itself *)

(** The trimmed code of the record can be encoded. *)
Definition code_encodable (p : plugin) : Prop :=
  is_Some (Py.encode_opt (Py.strip (code p))).

(** The trimmed code of the record, encoded, occurs in the header. *)
Definition code_occurs (header : bytes) (p : plugin) : Prop :=
  ∃ c, Py.encode_opt (Py.strip (code p)) = Some c ∧ occurs c header.

(** No code point of the text is a surrogate (U+D800 to U+DFFF). *)
Definition no_surrogate (s : str) : Prop :=
  Forall (λ c, c < 55296 ∨ 57343 < c) s.

(** ** Files and tables with padded codes *)

(** A valid preset in which no code of [padded_table] occurs. *)
Definition plain_preset : bytes := lit "CcnK0000000000000000".

Definition unknown_world : world :=
  World {[ py "u.fxp" := Regular plain_preset ]}
        (Table [Plugin (py " ZZZZ ") (py "Other") (py "Nobody")]).

(** The table of [loose_table] as a hand-edited file may hold it: the code
    [AAAA] and its name stored with blanks around them. *)
Definition padded_table : list plugin :=
  [Plugin (py "ZZZZ") (py "Other") (py "Nobody");
   Plugin (py " AAAA ") (py " X") (py "Y ")].

Definition padded_world : world :=
  World {[ py "p.fxp" := Regular loose_preset ]} (Table padded_table).


(** A table in which the code [Dupl] is stored twice, padded differently. *)
Definition padded_edit_table : list plugin :=
  [Plugin (py "Solo") (py "One") (py "Co");
   Plugin (py " Dupl") (py "Two") (py "Co");
   Plugin (py "Dupl ") (py "Three") (py "Co")].

Definition padded_edit_world : world :=
  World {[ py "p.fxp" := Regular loose_preset ]} (Table padded_edit_table).



(** Two presets of 24 bytes that differ at offsets 21 and 23. *)
Definition first_preset : bytes := lit "CcnK0000000000000000abcd".

Definition second_preset : bytes := lit "CcnK0000000000000000aXcY".

(** The two presets next to no signatures file, and next to one whose text
    is not JSON. *)
Definition pair_world : world :=
  World (<[ py "a.fxp" := Regular first_preset ]>
           {[ py "b.fxp" := Regular second_preset ]})
        Missing.

Definition pair_world_bad_json : world :=
  World (<[ py "a.fxp" := Regular first_preset ]>
           {[ py "b.fxp" := Regular second_preset ]})
        NotJson.

(** * Properties *)

(** ** Occurrence of one byte string in another *)

Section Contains.

Lemma startswith_prefix hay needle :
  Py.startswith hay needle = true ↔ ∃ post, hay = needle ++ post.
Proof.
  revert hay; induction needle as [|x needle IH]; intros hay; simpl.
  - split; [intros _; by exists hay | done].
  - destruct hay as [|y hay].
    + split; [done | intros [post H]; discriminate].
    + rewrite andb_true_iff, IH. split.
      * intros [Hxy [post ->]]. apply Byte.byte_dec_bl in Hxy as ->. eauto.
      * intros [post [= -> ->]]. split; [apply Byte.byte_dec_lb; done | eauto].
Qed.

Lemma contains_occurs hay needle :
  Py.contains hay needle = true ↔ occurs needle hay.
Proof.
  induction hay as [|y hay IH].
  - simpl. rewrite orb_false_r, startswith_prefix. split.
    + intros [post H]. exists [], post. done.
    + intros (pre & post & H). symmetry in H.
      apply app_eq_nil in H as [-> H]. apply app_eq_nil in H as [-> ->].
      exists []. done.
  - cbn [Py.contains]. rewrite orb_true_iff, startswith_prefix, IH. split.
    + intros [[post H] | (pre & post & H)].
      * exists [], post. done.
      * exists (y :: pre), post. rewrite H. done.
    + intros ([|z pre] & post & H).
      * left. exists post. done.
      * right. injection H as -> ->. exists pre, post. done.
Qed.

Lemma contains_empty hay : Py.contains hay [] = true.
Proof. apply contains_occurs. exists [], hay. done. Qed.

End Contains.

(** ** The header read by [_read_header] *)

Section Header.

Lemma read_header_Some w file_path header :
  _read_header w file_path = Some header ↔
  ∃ content,
    files w !! file_path = Some (Regular content)
    ∧ Py.endswith_any (Py.lower file_path) [py ".fxp"; py ".fxb"] = true
    ∧ header = take 20 content
    ∧ take 4 content = magic.
Proof.
  unfold _read_header, isfile, read_n, read_all.
  destruct (Py.endswith_any _ _) eqn:He;
    destruct (files w !! file_path) as [[|content]|] eqn:Hf; cbn;
    try (split; [done | intros (c & ? & ? & _); done]).
  unfold Py.bytes_eqb. rewrite take_take. cbn.
  case_bool_decide as Hm; cbn.
  - split.
    + intros [= <-]. exists content. done.
    + intros (c & [= <-] & _ & -> & _). done.
  - split; [done | intros (c & [= <-] & _ & _ & ?); done].
Qed.

Lemma read_header_length w file_path header :
  _read_header w file_path = Some header →
  (4 ≤ length header ≤ 20)%nat ∧ take 4 header = magic.
Proof.
  intros (content & _ & _ & -> & Hm)%read_header_Some.
  rewrite take_take. simpl. rewrite Hm. split; [|done].
  rewrite length_take. apply (f_equal length) in Hm.
  rewrite length_take in Hm.
  change (length magic) with 4%nat in Hm. lia.
Qed.

Lemma read_header_not_regular w file_path :
  isfile w file_path = false → _read_header w file_path = None.
Proof. unfold _read_header. intros ->. done. Qed.

(** A file too short to hold the magic constant has no header. *)
Lemma read_header_lt_4 w file_path content :
  files w !! file_path = Some (Regular content) →
  (length content < 4)%nat →
  _read_header w file_path = None.
Proof.
  intros Hf Hlen. destruct (_read_header w file_path) as [h|] eqn:E; [|done].
  apply read_header_Some in E as (c & Hc & _ & _ & Hm).
  rewrite Hf in Hc. injection Hc as <-.
  apply (f_equal length) in Hm. rewrite length_take in Hm.
  change (length magic) with 4%nat in Hm. lia.
Qed.

Lemma no_header_Some w file_path header :
  _read_header w file_path = Some header →
  no_header (_read_header w file_path) = false.
Proof.
  intros H. pose proof (read_header_length _ _ _ H) as [Hl _].
  rewrite H. destruct header; simpl in *; [lia | done].
Qed.

End Header.

(** ** Stripping *)

Section Strip.

Lemma lstrip_spaces s : Forall (λ c, Py.isspace c = true) s → Py.lstrip s = [].
Proof. induction 1 as [|c s Hc _ IH]; simpl; [done | by rewrite Hc]. Qed.

Lemma strip_spaces s : Forall (λ c, Py.isspace c = true) s → Py.strip s = [].
Proof. intros H. unfold Py.strip. rewrite lstrip_spaces; done. Qed.

End Strip.

(** ** The resolver *)

Section Resolver.

Variable field : plugin → str.
Variable header : bytes.

Lemma scan_hit p rest :
  matches header p →
  scan field header (p :: rest) = Return (Some (Py.strip (field p))).
Proof.
  intros (c & Hc & Ho). cbn. unfold Py.encode. rewrite Hc. cbn.
  apply contains_occurs in Ho. by rewrite Ho.
Qed.

Lemma scan_miss p rest :
  is_Some (Py.encode_opt (stripped_code p)) →
  ¬ matches header p →
  scan field header (p :: rest) = scan field header rest.
Proof.
  intros [c Hc] Hn. cbn. unfold Py.encode. rewrite Hc. cbn.
  destruct (Py.contains header c) eqn:E; [|done].
  destruct Hn. exists c. split; [done | by apply contains_occurs].
Qed.

Lemma scan_none table :
  encodable table →
  (∀ p, p ∈ table → ¬ matches header p) →
  scan field header table = Return None.
Proof.
  induction 1 as [|q table Hq _ IH]; intros Hno; [done |].
  rewrite scan_miss; [| done | apply Hno; left].
  apply IH. intros p Hp. apply Hno. by right.
Qed.

Lemma resolve_table w file_path table :
  _read_header w file_path = Some header →
  signatures_json w = Table table →
  resolve field w file_path = scan field header table.
Proof.
  intros Hh Ht. unfold resolve. rewrite Hh.
  apply read_header_length in Hh as [Hl _].
  destruct header as [|x h]; [simpl in Hl; lia |].
  unfold _load_signatures, json_load. rewrite Ht. cbn.
  by destruct table.
Qed.

Lemma resolve_missing w file_path :
  signatures_json w = Missing → resolve field w file_path = Return None.
Proof.
  intros Ht. unfold resolve, _load_signatures, json_load. rewrite Ht.
  by destruct (_read_header w file_path) as [[|]|].
Qed.

End Resolver.

Section ResolverPrefix.

Variable field : plugin → str.
Variable header : bytes.

(** The loop passes the records whose trimmed codes can be encoded and do
    not occur in the header. *)
Lemma scan_skip table i :
  (∀ j q, (j < i)%nat → table !! j = Some q →
          code_encodable q ∧ ¬ code_occurs header q) →
  scan field header table = scan field header (drop i table).
Proof.
  revert table. induction i as [|i IH]; intros table Hb; [done |].
  destruct table as [|q table]; [done |].
  destruct (Hb 0%nat q) as [He Hn]; [lia | done |].
  rewrite scan_miss by done. cbn [drop]. apply IH.
  intros j r Hj Hr. apply (Hb (S j)); [lia | done].
Qed.

Lemma scan_first_prefix table i p :
  table !! i = Some p →
  code_occurs header p →
  (∀ j q, (j < i)%nat → table !! j = Some q →
          code_encodable q ∧ ¬ code_occurs header q) →
  scan field header table = Return (Some (Py.strip (field p))).
Proof.
  intros Hi Hp Hb. rewrite (scan_skip table i Hb).
  rewrite (drop_S _ _ _ Hi). by apply scan_hit.
Qed.


Lemma scan_none_all table :
  (∀ p, p ∈ table → code_encodable p ∧ ¬ code_occurs header p) →
  scan field header table = Return None.
Proof.
  intros Hall. apply scan_none.
  - apply Forall_forall. intros p Hp. by apply Hall.
  - intros p Hp. by apply Hall.
Qed.

(** An answer of the loop is the field of the first record that occurs. *)
Lemma scan_Some_inv table x :
  scan field header table = Return (Some x) →
  ∃ i r,
    table !! i = Some r
    ∧ code_occurs header r
    ∧ (∀ j q, (j < i)%nat → table !! j = Some q →
              code_encodable q ∧ ¬ code_occurs header q)
    ∧ x = Py.strip (field r).
Proof.
  induction table as [|p table IH]; [done |].
  cbn [scan]. unfold Py.encode, stripped_code.
  destruct (Py.encode_opt (Py.strip (code p))) as [c|] eqn:Ec; cbn; [| done].
  destruct (Py.contains header c) eqn:Hc.
  - intros [= <-]. exists 0%nat, p. split; [done |]. split.
    { exists c. split; [done | by apply contains_occurs]. }
    split; [intros; lia | done].
  - intros (i & r & Hi & Hm & Hb & Hx)%IH.
    exists (S i), r. split; [done |]. split; [done |]. split; [| done].
    intros [|j] q Hj Hq.
    + injection Hq as <-. split; [by exists c |].
      intros (c' & Hc' & Ho). rewrite Ec in Hc'. injection Hc' as <-.
      apply contains_occurs in Ho. congruence.
    + apply (Hb j); [lia | done].
Qed.

End ResolverPrefix.

(** With a valid header and a table, GetCode, GetName and GetCompany return
    the trimmed field of the first record, in table order, whose trimmed and
    encoded code occurs somewhere in the header as a contiguous run of bytes,
    as long as the trimmed codes of the records before it can be encoded;
    they return None when every code can be encoded and none occurs. *)
Theorem resolve_first_match w file_path header table :
  _read_header w file_path = Some header →
  signatures_json w = Table table →
  (∀ i p,
     table !! i = Some p →
     code_occurs header p →
     (∀ j q, (j < i)%nat → table !! j = Some q →
             code_encodable q ∧ ¬ code_occurs header q) →
     GetCode w file_path = Return (Some (Py.strip (code p)))
     ∧ GetName w file_path = Return (Some (Py.strip (name p)))
     ∧ GetCompany w file_path = Return (Some (Py.strip (company p))))
  ∧ ((∀ p, p ∈ table → code_encodable p ∧ ¬ code_occurs header p) →
     GetCode w file_path = Return None
     ∧ GetName w file_path = Return None
     ∧ GetCompany w file_path = Return None).
Proof.
  intros Hh Ht. unfold GetCode, GetName, GetCompany.
  rewrite !(resolve_table _ header w file_path table) by done.
  split.
  - intros i p Hi Hm Hbefore. repeat split; by eapply scan_first_prefix.
  - intros Hno. repeat split; by apply scan_none_all.
Qed.

Lemma resolve_first_match_witness :
  GetCode padded_world (py "p.fxp") = Return (Some (py "AAAA"))
  ∧ GetName padded_world (py "p.fxp") = Return (Some (py "X"))
  ∧ GetCompany padded_world (py "p.fxp") = Return (Some (py "Y")).
Proof.
  refine (proj1 (resolve_first_match padded_world (py "p.fxp")
                   (take 20 loose_preset) padded_table _ _)
                1%nat (Plugin (py " AAAA ") (py " X") (py "Y ")) _ _ _).
  - vm_compute. reflexivity.
  - reflexivity.
  - reflexivity.
  - exists (lit "AAAA"). split; [reflexivity |].
    exists (lit "CcnK"), (lit "00000000QQQQ"). reflexivity.
  - intros [|j] q Hj Hq; [| lia]. injection Hq as <-. split.
    + by exists (lit "ZZZZ").
    + intros (c & Hc & Ho). vm_compute in Hc. injection Hc as <-.
      apply contains_occurs in Ho. vm_compute in Ho. discriminate.
Defined.

(** C3. The claim: for every valid header and every table the resolvers
    return the field of the first record whose trimmed, encoded code occurs
    in the header.  The loop encodes the trimmed code of every record it
    meets and handles no exception: in a table that AddToDatabase itself has
    written, whose first code holds a lone surrogate and whose second code
    occurs in the header, str.encode raises on the first record, and
    UnicodeEncodeError leaves GetCode, GetName and GetCompany instead of the
    fields of the second record. *)
Theorem resolvers_raise_on_unencodable_code :
  AddToDatabase
    (AddToDatabase (World {[ py "p.fxp" := Regular loose_preset ]} Missing)
                   [55296; 65; 65; 65] (py "Broken") (py "Nobody")).2
    (py "AAAA") (py "X") (py "Y")
  = (true, surrogate_world)
  ∧ _read_header surrogate_world (py "p.fxp")
    = Some (lit "CcnK" ++ lit "AAAA" ++ lit "00000000QQQQ")
  ∧ signatures_json surrogate_world
    = Table [Plugin [55296; 65; 65; 65] (py "Broken") (py "Nobody");
             Plugin (py "AAAA") (py "X") (py "Y")]
  ∧ Py.encode_opt (Py.strip [55296; 65; 65; 65]) = None
  ∧ Py.encode_opt (Py.strip (py "AAAA")) = Some (lit "AAAA")
  ∧ GetCode surrogate_world (py "p.fxp") = Raise UnicodeEncodeError
  ∧ GetName surrogate_world (py "p.fxp") = Raise UnicodeEncodeError
  ∧ GetCompany surrogate_world (py "p.fxp") = Raise UnicodeEncodeError.
Proof. vm_compute. done. Qed.

(** ** The signature store *)

Section Store.

Lemma load_signatures_not_json w :
  signatures_json w = NotJson → _load_signatures w = Raise JSONDecodeError.
Proof. unfold _load_signatures, json_load. by intros ->. Qed.



Lemma or_empty_load w :
  signatures_json w ≠ NotJson →
  ∃ loaded, _load_signatures w = Return loaded ∧ or_empty loaded = table_of w.
Proof.
  unfold _load_signatures, json_load, table_of.
  destruct (signatures_json w) as [| |[|p data]]; intros H; eauto.
  done.
Qed.

(** What [AddToDatabase] does once its arguments pass the guard. *)
Lemma AddToDatabase_accepts w c n m :
  length c = 4%nat → n ≠ [] → m ≠ [] →
  signatures_json w ≠ NotJson →
  AddToDatabase w c n m =
    (true, World (files w)
                 (Table (table_of w ++
                         [Plugin (Py.strip c) (Py.strip n) (Py.strip m)]))).
Proof.
  intros Hc Hn Hm Hs. unfold AddToDatabase.
  destruct c as [|c0 c]; [done |]. rewrite Hc.
  destruct n as [|n0 n]; [done |]. destruct m as [|m0 m]; [done |].
  cbn [empty orb negb Nat.eqb].
  destruct (or_empty_load w Hs) as (loaded & Hl & Ho).
  rewrite Hl. cbn. by rewrite Ho.
Qed.

Lemma AddToDatabase_rejects w c n m :
  length c ≠ 4%nat ∨ n = [] ∨ m = [] →
  AddToDatabase w c n m = (false, w).
Proof.
  intros H. unfold AddToDatabase.
  destruct (empty c) eqn:Ec; [done |].
  destruct (length c =? 4)%nat eqn:El; [| done].
  apply Nat.eqb_eq in El.
  destruct H as [H | [-> | ->]]; [done | done |].
  cbn. by rewrite orb_true_r.
Qed.

Lemma filter_length_eq (P : plugin → Prop) `{!∀ x, Decision (P x)} l :
  length (filter P l) = length l ↔ Forall P l.
Proof.
  split.
  - induction l as [|x l IH]; [done |].
    rewrite filter_cons. case_decide as Hx; simpl.
    + intros [= Hl]. constructor; [done | by apply IH].
    + intros Hl. pose proof (length_filter P l). lia.
  - induction 1 as [|x l Hx _ IH]; [done |].
    rewrite filter_cons. rewrite decide_True by done. simpl. by rewrite IH.
Qed.

End Store.



(** C10. A code of four whitespace characters passes the guard of
    AddToDatabase and is stored with the empty trimmed code; a record whose
    trimmed code is empty, placed first in the table, makes GetCode, GetName
    and GetCompany return its fields for every valid header, whatever the
    header holds. *)
Theorem whitespace_code_matches_every_header :
  (∀ w c n m,
     length c = 4%nat → Forall (λ x, Py.isspace x = true) c →
     n ≠ [] → m ≠ [] → signatures_json w ≠ NotJson →
     AddToDatabase w c n m =
       (true, World (files w)
                    (Table (table_of w ++
                            [Plugin [] (Py.strip n) (Py.strip m)]))))
  ∧ (∀ w file_path header p rest,
       _read_header w file_path = Some header →
       signatures_json w = Table (p :: rest) →
       stripped_code p = [] →
       occurs [] header
       ∧ GetCode w file_path = Return (Some [])
       ∧ GetName w file_path = Return (Some (Py.strip (name p)))
       ∧ GetCompany w file_path = Return (Some (Py.strip (company p)))).
Proof.
  split.
  - intros w c n m Hc Hsp Hn Hm Hs.
    rewrite AddToDatabase_accepts by done. by rewrite (strip_spaces c).
  - intros w file_path header p rest Hh Ht Hp.
    assert (Ho : occurs [] header) by (by exists [], header).
    assert (Hm : matches header p) by (exists []; by rewrite Hp).
    split; [done |]. unfold GetCode, GetName, GetCompany.
    rewrite !(resolve_table _ header w file_path (p :: rest)) by done.
    rewrite !scan_hit by done. unfold stripped_code in Hp. by rewrite Hp.
Qed.

Lemma whitespace_code_matches_every_header_witness :
  AddToDatabase (World ∅ Missing) (py "    ") (py "Ghost") (py "Void")
  = (true, World ∅ (Table [Plugin [] (py "Ghost") (py "Void")]))
  ∧ GetCode
      (World {[ py "p.fxp" := Regular loose_preset ]}
             (Table [Plugin [] (py "Ghost") (py "Void")]))
      (py "p.fxp") = Return (Some [])
  ∧ GetName
      (World {[ py "p.fxp" := Regular loose_preset ]}
             (Table [Plugin [] (py "Ghost") (py "Void")]))
      (py "p.fxp") = Return (Some (py "Ghost")).
Proof.
  split.
  - apply (proj1 whitespace_code_matches_every_header
             (World ∅ Missing) (py "    ") (py "Ghost") (py "Void")).
    + reflexivity.
    + repeat constructor.
    + discriminate.
    + discriminate.
    + discriminate.
  - pose proof (proj2 whitespace_code_matches_every_header
                  (World {[ py "p.fxp" := Regular loose_preset ]}
                         (Table [Plugin [] (py "Ghost") (py "Void")]))
                  (py "p.fxp") (take 20 loose_preset)
                  (Plugin [] (py "Ghost") (py "Void")) []) as H.
    destruct H as (_ & Hc & Hn & _).
    + vm_compute. reflexivity.
    + reflexivity.
    + reflexivity.
    + split; [exact Hc | exact Hn].
Defined.

(** ** The comparator *)

Section Comparator.

Lemma byte_val_inj x y : byte_val x = byte_val y → x = y.
Proof.
  unfold byte_val. intros H. apply N2Z.inj in H.
  pose proof (Byte.of_to_N x) as Hx. rewrite H, Byte.of_to_N in Hx.
  by injection Hx.
Qed.


Lemma add_differences_nil r : add_differences r [] = r.
Proof.
  destruct r. unfold add_differences. cbn.
  by rewrite app_nil_r, Z.add_0_r.
Qed.

Lemma add_differences_app r ds es :
  add_differences (add_differences r ds) es = add_differences r (ds ++ es).
Proof.
  unfold add_differences. cbn. rewrite <- app_assoc, length_app. f_equal. lia.
Qed.

Lemma compare_step_at A B r s a b :
  A !! s = Some a → B !! s = Some b →
  compare_step A B (Return r) s =
    Return (add_differences r
              (if decide (a = b) then []
               else [(Z.of_nat s, byte_val a, byte_val b,
                      (byte_val a - byte_val b)%Z)])).
Proof.
  intros Ha Hb. unfold compare_step, getitem. cbn. rewrite Ha, Hb. cbn.
  fold (byte_val a) (byte_val b).
  case_decide as Hab.
  - subst b. rewrite Z.eqb_refl. cbn. by rewrite add_differences_nil.
  - destruct (Z.eqb_spec (byte_val a) (byte_val b)) as [E|E]; [| done].
    by apply byte_val_inj in E.
Qed.

(** The loop from index [s] over [k] turns computes the difference list of
    the specification on the bytes [s .. s+k-1]. *)
Lemma compare_loop A B k : ∀ s r,
  (s + k ≤ length A)%nat → (s + k ≤ length B)%nat →
  fold_left (compare_step A B) (seq s k) (Return r) =
    Return (add_differences r
              (byte_differences s (take k (drop s A)) (take k (drop s B)))).
Proof.
  induction k as [|k IH]; intros s r HA HB.
  - cbn. by rewrite add_differences_nil.
  - destruct (lookup_lt_is_Some_2 A s) as [a Ha]; [lia |].
    destruct (lookup_lt_is_Some_2 B s) as [b Hb]; [lia |].
    rewrite (drop_S _ _ _ Ha), (drop_S _ _ _ Hb). cbn [seq fold_left take].
    rewrite (compare_step_at _ _ _ _ _ _ Ha Hb).
    rewrite IH by lia. cbn [byte_differences].
    by rewrite add_differences_app.
Qed.

Lemma scan_returns field header table :
  encodable table → ∃ r, scan field header table = Return r.
Proof.
  induction 1 as [|p table [c Hc] _ IH]; [by eexists |].
  cbn. unfold Py.encode. rewrite Hc. cbn.
  destruct (Py.contains header c); [by eexists | done].
Qed.

Lemma resolve_returns field w file_path :
  store_loads w → ∃ r, resolve field w file_path = Return r.
Proof.
  unfold store_loads, resolve, _load_signatures, json_load.
  destruct (_read_header w file_path) as [[|x h]|]; try by eexists.
  destruct (signatures_json w) as [| |[|p data]]; try done; try by eexists.
  intros H. change (∃ r, scan field (x :: h) (p :: data) = Return r).
  by apply scan_returns.
Qed.

Lemma elem_of_byte_differences A : ∀ B s i a b d,
  (i, a, b, d) ∈ byte_differences s A B ↔
  ∃ k x y, i = Z.of_nat (s + k) ∧ A !! k = Some x ∧ B !! k = Some y
           ∧ x ≠ y ∧ a = byte_val x ∧ b = byte_val y ∧ d = (a - b)%Z.
Proof.
  induction A as [|a0 A IH]; intros [|b0 B] s i a b d; cbn;
    try (split; [by intros ?%elem_of_nil | by intros (k & x & y & ? & ? & ? & _)]).
  rewrite elem_of_app, IH. split.
  - intros [H | (k & x & y & -> & Hx & Hy & Hrest)].
    + case_decide as E; [by apply elem_of_nil in H |].
      apply list_elem_of_singleton in H. injection H as -> -> -> ->.
      exists 0%nat, a0, b0. rewrite Nat.add_0_r. done.
    + exists (S k), x, y. split; [f_equal; lia | done].
  - intros ([|k] & x & y & -> & Hx & Hy & Hxy & -> & -> & ->).
    + left. cbn in Hx, Hy. injection Hx as ->. injection Hy as ->.
      rewrite decide_False by done. rewrite Nat.add_0_r. by left.
    + right. exists k, x, y. split; [f_equal; lia | done].
Qed.

Lemma byte_differences_sorted A : ∀ B s,
  StronglySorted (λ e1 e2, (index_of e1 < index_of e2)%Z)
                 (byte_differences s A B)
  ∧ Forall (λ e, (Z.of_nat s ≤ index_of e)%Z) (byte_differences s A B).
Proof.
  induction A as [|a0 A IH]; intros [|b0 B] s; cbn;
    try (split; constructor).
  destruct (IH B (S s)) as [Hs Hf].
  assert (Hf' : Forall (λ e, (Z.of_nat s < index_of e)%Z)
                       (byte_differences (S s) A B)).
  { eapply Forall_impl; [exact Hf |]. cbn. intros; lia. }
  case_decide; cbn.
  - split; [done |]. eapply Forall_impl; [exact Hf' |]. cbn. intros; lia.
  - split.
    + constructor; [done |]. exact Hf'.
    + constructor; [unfold index_of; cbn; lia |].
      eapply Forall_impl; [exact Hf' |]. cbn. intros; lia.
Qed.

End Comparator.

(** For two valid files with contents A and B, any byte count and a
    signature table that loads,
    Compare returns a result whose difference list is that of the first
    n = min(len A, len B, byteCount) bytes: one entry
    (index, byteA, byteB, byteA - byteB) for each index below n where the
    bytes differ, in increasing order of index; total_different_bytes is the
    length of the list; the list is a function of the first n bytes of each
    file only. *)
Theorem Compare_differences w file1_path file2_path h1 h2 A B byteCount :
  store_loads w →
  _read_header w file1_path = Some h1 →
  _read_header w file2_path = Some h2 →
  files w !! file1_path = Some (Regular A) →
  files w !! file2_path = Some (Regular B) →
  let n := Z.min (Z.min (Z.of_nat (length A)) (Z.of_nat (length B)))
                 byteCount in
  ∃ r,
    Compare w file1_path file2_path byteCount = Return r
    ∧ differences r
      = byte_differences 0 (take (Z.to_nat n) A) (take (Z.to_nat n) B)
    ∧ total_different_bytes r = Z.of_nat (length (differences r))
    ∧ (∀ i a b d,
         (i, a, b, d) ∈ differences r ↔
         (0 ≤ i < n)%Z
         ∧ ∃ x y, A !! Z.to_nat i = Some x ∧ B !! Z.to_nat i = Some y
                  ∧ x ≠ y ∧ a = byte_val x ∧ b = byte_val y
                  ∧ d = (a - b)%Z)
    ∧ StronglySorted (λ e1 e2, (index_of e1 < index_of e2)%Z) (differences r).
Proof.
  intros Hs Hh1 Hh2 HA HB n. unfold Compare, GetCode, GetName, GetCompany.
  destruct (resolve_returns code w file1_path Hs) as [c1 ->].
  destruct (resolve_returns company w file1_path Hs) as [m1 ->].
  destruct (resolve_returns name w file1_path Hs) as [n1 ->].
  destruct (resolve_returns code w file2_path Hs) as [c2 ->].
  destruct (resolve_returns company w file2_path Hs) as [m2 ->].
  destruct (resolve_returns name w file2_path Hs) as [n2 ->].
  cbn [mbind outcome_bind].
  rewrite (no_header_Some _ _ _ Hh1), (no_header_Some _ _ _ Hh2).
  unfold read_all. rewrite HA, HB. cbn [mbind outcome_bind orb].
  fold n.
  rewrite (compare_loop A B (Z.to_nat n) 0) by lia. rewrite !drop_0.
  eexists. split; [reflexivity |]. cbn [differences total_different_bytes
    add_differences set_same_flags app].
  set (ds := byte_differences 0 _ _).
  split; [done |]. split; [lia |]. split.
  - intros i a b d. subst ds. rewrite elem_of_byte_differences. split.
    + intros (k & x & y & -> & Hx & Hy & Hrest).
      apply lookup_take_Some in Hx as [Hx Hk].
      apply lookup_take_Some in Hy as [Hy _].
      rewrite Nat.add_0_l, Nat2Z.id. split; [lia | eauto].
    + intros (Hi & x & y & Hx & Hy & Hxy & Ha & Hb & Hd).
      exists (Z.to_nat i), x, y. split; [lia |].
      rewrite !lookup_take_Some. repeat split; try done; lia.
  - apply byte_differences_sorted.
Qed.

Lemma Compare_differences_witness :
  ∃ r,
    Compare compare_world (py "l.fxp") (py "r.fxb") 10 = Return r
    ∧ differences r = [(5, 98, 88, 10); (7, 100, 89, 11)]%Z
    ∧ total_different_bytes r = 2%Z.
Proof.
  destruct (Compare_differences compare_world (py "l.fxp") (py "r.fxb")
              left_preset right_preset left_preset right_preset 10)
    as (r & Hr & Hd & Ht & _).
  - exact I.
  - vm_compute. reflexivity.
  - vm_compute. reflexivity.
  - vm_compute. reflexivity.
  - vm_compute. reflexivity.
  - exists r. split; [exact Hr |].
    split; [rewrite Hd | rewrite Ht, Hd]; reflexivity.
Defined.

(** ** Where the code departs from the specification *)

(** C1. The claim: _read_header returns None for every file shorter than 20
    bytes.  The code has no length test: for a nine-byte file with a preset
    extension that starts with the magic constant it returns the nine
    bytes. *)
Theorem read_header_short_file :
  length short_preset = 9%nat
  ∧ files short_world !! py "a.fxp" = Some (Regular short_preset)
  ∧ _read_header short_world (py "a.fxp") = Some short_preset.
Proof. vm_compute. done. Qed.

(** C2. The claim: _load_signatures and the read operations built on it give
    None when signatures.json exists but does not parse.  The code catches
    FileNotFoundError only: the decoding error leaves _load_signatures,
    FetchDatabase, GetCode, GetName, GetCompany and Compare uncaught. *)
Theorem load_signatures_raises_on_bad_json :
  _load_signatures broken_world = Raise JSONDecodeError
  ∧ FetchDatabase broken_world = Raise JSONDecodeError
  ∧ GetCode broken_world (py "p.fxp") = Raise JSONDecodeError
  ∧ GetName broken_world (py "p.fxp") = Raise JSONDecodeError
  ∧ GetCompany broken_world (py "p.fxp") = Raise JSONDecodeError
  ∧ Compare broken_world (py "p.fxp") (py "p.fxp") 100 = Raise JSONDecodeError.
Proof. vm_compute. done. Qed.

(** C7. The claim: for every two valid files and every byte count Compare
    returns the difference list of their first n bytes.  Compare resolves
    the identity of both files before it compares a byte, and the
    JSONDecodeError that _load_signatures lets through (C2) leaves Compare
    with it: with a signatures.json that is not JSON, two valid presets of
    24 bytes that differ at offsets 21 and 23 give no result at all, where
    the same two files without a signatures file give the two entries. *)
Theorem Compare_raises_on_bad_json :
  _read_header pair_world_bad_json (py "a.fxp") = Some (take 20 first_preset)
  ∧ _read_header pair_world_bad_json (py "b.fxp")
    = Some (take 20 second_preset)
  ∧ length first_preset = 24%nat ∧ length second_preset = 24%nat
  ∧ Compare pair_world_bad_json (py "a.fxp") (py "b.fxp") 100
    = Raise JSONDecodeError
  ∧ files pair_world = files pair_world_bad_json
  ∧ (∃ r, Compare pair_world (py "a.fxp") (py "b.fxp") 100 = Return r
          ∧ differences r = [(21, 98, 88, 10); (23, 100, 89, 11)]%Z
          ∧ total_different_bytes r = 2%Z).
Proof.
  repeat split; try (vm_compute; done).
  eexists. split; [vm_compute; reflexivity |]. done.
Qed.

(** C6. The claim: AddToDatabase fails when name or company is empty after
    trimming, so that no stored record has an empty name or company.  The
    code tests the arguments before it trims them: a name of blanks passes
    and is stored as the empty string. *)
Theorem AddToDatabase_stores_blank_name :
  AddToDatabase (World ∅ Missing) (py "ABCD") (py "  ") (py "Acme")
  = (true, World ∅ (Table [Plugin (py "ABCD") [] (py "Acme")])).
Proof. vm_compute. done. Qed.

(** ** UTF-8: encoding and decoding are inverse to each other *)

Module Utf8.

Import Py.

Ltac Zify.zify_post_hook ::= Z.to_euclidean_division_equations.

Lemma to_N_byte_of_N n : n < 256 → Byte.to_N (byte_of_N n) = n.
Proof.
  intros Hn. unfold byte_of_N. destruct (Byte.of_N n) as [x|] eqn:E.
  - by apply Byte.to_of_N.
  - apply Byte.of_N_None_iff in E. lia.
Qed.

Lemma byte_of_N_to_N x : byte_of_N (Byte.to_N x) = x.
Proof. unfold byte_of_N. by rewrite Byte.of_to_N. Qed.

Lemma low6_mod x : low6 x = x mod 64.
Proof. unfold low6. change 63 with (N.ones 6). by rewrite N.land_ones. Qed.

Lemma land_31 x : N.land x 31 = x mod 32.
Proof. change 31 with (N.ones 5). by rewrite N.land_ones. Qed.

Lemma land_15 x : N.land x 15 = x mod 16.
Proof. change 15 with (N.ones 4). by rewrite N.land_ones. Qed.

Lemma land_7 x : N.land x 7 = x mod 8.
Proof. change 7 with (N.ones 3). by rewrite N.land_ones. Qed.

Lemma land_63 x : N.land x 63 = x mod 64.
Proof. apply low6_mod. Qed.

(** Replace the bit operations of the codec by division and remainder. *)
Ltac to_div :=
  unfold cont, between in *;
  rewrite ?low6_mod, ?land_63, ?land_31, ?land_15, ?land_7,
    ?N.shiftr_div_pow2, ?N.shiftl_mul_pow2 in *;
  change (2 ^ 6) with 64 in *; change (2 ^ 12) with 4096 in *;
  change (2 ^ 18) with 262144 in *.

(** Decide the comparisons of the goal one after the other, closing the
    impossible cases by arithmetic. *)
Ltac split_test :=
  match goal with
  | |- context [N.eqb ?a ?b] =>
      destruct (N.eqb_spec a b); try lia; cbn [andb orb negb]
  | |- context [N.ltb ?a ?b] =>
      destruct (N.ltb_spec a b); try lia; cbn [andb orb negb]
  | |- context [N.leb ?a ?b] =>
      destruct (N.leb_spec a b); try lia; cbn [andb orb negb]
  end.

Lemma decode_opt_cons x0 t0 :
  decode_opt (x0 :: t0) =
  let b0 := Byte.to_N x0 in
  if b0 <? 128 then cons b0 <$> decode_opt t0
  else if between 194 b0 223 then
    match t0 with
    | x1 :: t1 =>
        let b1 := Byte.to_N x1 in
        if cont b1
        then cons (N.shiftl (N.land b0 31) 6 + low6 b1) <$> decode_opt t1
        else None
    | _ => None
    end
  else if between 224 b0 239 then
    match t0 with
    | x1 :: x2 :: t2 =>
        let b1 := Byte.to_N x1 in
        let b2 := Byte.to_N x2 in
        if between (if b0 =? 224 then 160 else 128) b1
                   (if b0 =? 237 then 159 else 191) && cont b2
        then cons (N.shiftl (N.land b0 15) 12 + N.shiftl (low6 b1) 6
                   + low6 b2) <$> decode_opt t2
        else None
    | _ => None
    end
  else if between 240 b0 244 then
    match t0 with
    | x1 :: x2 :: x3 :: t3 =>
        let b1 := Byte.to_N x1 in
        let b2 := Byte.to_N x2 in
        let b3 := Byte.to_N x3 in
        if between (if b0 =? 240 then 144 else 128) b1
                   (if b0 =? 244 then 143 else 191)
           && cont b2 && cont b3
        then cons (N.shiftl (N.land b0 7) 18 + N.shiftl (low6 b1) 12
                   + N.shiftl (low6 b2) 6 + low6 b3) <$> decode_opt t3
        else None
    | _ => None
    end
  else None.
Proof. reflexivity. Qed.

Ltac codec_steps :=
  to_div;
  repeat first [ rewrite to_N_byte_of_N by lia
               | progress cbv beta iota zeta
               | split_test ].

Lemma decode_encode_char c x rest :
  encode_char c = Some x →
  decode_opt (x ++ rest) = cons c <$> decode_opt rest.
Proof.
  unfold encode_char.
  destruct (N.ltb_spec c 128); [| destruct (N.ltb_spec c 2048);
    [| destruct (N.ltb_spec c 65536); [| destruct (N.ltb_spec c 1114112)]]].
  - intros [= <-]. cbn [app]. rewrite decode_opt_cons.
    codec_steps. done.
  - intros [= <-]. cbn [app]. rewrite decode_opt_cons.
    codec_steps. do 2 f_equal. lia.
  - destruct (N.leb_spec 55296 c); destruct (N.leb_spec c 57343);
      cbn [andb]; try done.
    all: intros [= <-]; cbn [app]; rewrite decode_opt_cons.
    all: codec_steps; do 2 f_equal; lia.
  - intros [= <-]. cbn [app]. rewrite decode_opt_cons.
    codec_steps; do 2 f_equal; lia.
  - done.
Qed.

Lemma decode_encode s : ∀ l,
  encode_opt s = Some l → decode_opt l = Some s.
Proof.
  induction s as [|c s IH]; intros l; cbn [encode_opt].
  - by intros [= <-].
  - destruct (encode_char c) as [x|] eqn:Ec; [| done].
    destruct (encode_opt s) as [y|] eqn:Es; [| done].
    intros [= <-]. rewrite (decode_encode_char _ _ _ Ec).
    by rewrite (IH y).
Qed.

Lemma byte_of_N_eq n x : n = Byte.to_N x → byte_of_N n = x.
Proof. intros ->. apply byte_of_N_to_N. Qed.

(** The encoding of a code point put together from well-formed bytes. *)
Ltac encode_bytes :=
  unfold encode_char; to_div;
  repeat split_test;
  repeat f_equal; apply byte_of_N_eq; lia.

Lemma encode_char_1 x0 :
  Byte.to_N x0 < 128 → encode_char (Byte.to_N x0) = Some [x0].
Proof. intros. encode_bytes. Qed.

Lemma encode_char_2 x0 x1 :
  between 194 (Byte.to_N x0) 223 = true →
  cont (Byte.to_N x1) = true →
  encode_char (N.shiftl (N.land (Byte.to_N x0) 31) 6 + low6 (Byte.to_N x1))
  = Some [x0; x1].
Proof.
  unfold cont, between. rewrite !andb_true_iff, !N.leb_le.
  intros [? ?] [? ?]. encode_bytes.
Qed.

Lemma encode_char_3 x0 x1 x2 :
  between 224 (Byte.to_N x0) 239 = true →
  between (if Byte.to_N x0 =? 224 then 160 else 128) (Byte.to_N x1)
          (if Byte.to_N x0 =? 237 then 159 else 191)
  && cont (Byte.to_N x2) = true →
  encode_char (N.shiftl (N.land (Byte.to_N x0) 15) 12
               + N.shiftl (low6 (Byte.to_N x1)) 6 + low6 (Byte.to_N x2))
  = Some [x0; x1; x2].
Proof.
  unfold cont, between. rewrite !andb_true_iff, !N.leb_le.
  intros [? ?] [[? ?] [? ?]].
  destruct (N.eqb_spec (Byte.to_N x0) 224);
    destruct (N.eqb_spec (Byte.to_N x0) 237); try lia; encode_bytes.
Qed.

Lemma encode_char_4 x0 x1 x2 x3 :
  between 240 (Byte.to_N x0) 244 = true →
  between (if Byte.to_N x0 =? 240 then 144 else 128) (Byte.to_N x1)
          (if Byte.to_N x0 =? 244 then 143 else 191)
  && cont (Byte.to_N x2) && cont (Byte.to_N x3) = true →
  encode_char (N.shiftl (N.land (Byte.to_N x0) 7) 18
               + N.shiftl (low6 (Byte.to_N x1)) 12
               + N.shiftl (low6 (Byte.to_N x2)) 6 + low6 (Byte.to_N x3))
  = Some [x0; x1; x2; x3].
Proof.
  unfold cont, between. rewrite !andb_true_iff, !N.leb_le.
  intros [? ?] [[[? ?] [? ?]] [? ?]].
  destruct (N.eqb_spec (Byte.to_N x0) 240);
    destruct (N.eqb_spec (Byte.to_N x0) 244); try lia; encode_bytes.
Qed.

Lemma encode_decode_le n : ∀ l s,
  (length l ≤ n)%nat → decode_opt l = Some s → encode_opt s = Some l.
Proof.
  induction n as [|n IH]; intros l s Hlen.
  - destruct l; [| cbn in Hlen; lia]. by intros [= <-].
  - destruct l as [|x0 t0]; [by intros [= <-] |].
    rewrite decode_opt_cons. cbv zeta. cbn in Hlen.
    destruct (N.ltb_spec (Byte.to_N x0) 128).
    { destruct (decode_opt t0) as [s'|] eqn:E; [| done]. intros [= <-].
      cbn [encode_opt]. rewrite encode_char_1 by done.
      rewrite (IH t0 s') by (done || lia). done. }
    destruct (between 194 _ 223) eqn:T2.
    { destruct t0 as [|x1 t1]; [done |].
      destruct (cont _) eqn:C1; [| done].
      destruct (decode_opt t1) as [s'|] eqn:E; [| done]. intros [= <-].
      cbn [encode_opt]. rewrite encode_char_2 by done.
      rewrite (IH t1 s') by (done || cbn in Hlen; lia). done. }
    destruct (between 224 _ 239) eqn:T3.
    { destruct t0 as [|x1 [|x2 t2]]; [done | done |].
      destruct (_ && _) eqn:C1; [| done].
      destruct (decode_opt t2) as [s'|] eqn:E; [| done]. intros [= <-].
      cbn [encode_opt]. rewrite encode_char_3 by done.
      rewrite (IH t2 s') by (done || cbn in Hlen; lia). done. }
    destruct (between 240 _ 244) eqn:T4; [| done].
    destruct t0 as [|x1 [|x2 [|x3 t3]]]; [done | done | done |].
    destruct (_ && _) eqn:C1; [| done].
    destruct (decode_opt t3) as [s'|] eqn:E; [| done]. intros [= <-].
    cbn [encode_opt]. rewrite encode_char_4 by done.
    rewrite (IH t3 s') by (done || cbn in Hlen; lia). done.
Qed.

Lemma encode_decode l s : decode_opt l = Some s → encode_opt s = Some l.
Proof. by apply (encode_decode_le (length l)). Qed.

(** [decode] returns the text whose encoding the bytes are, and raises
    exactly when there is none. *)
Theorem decode_opt_spec l s : decode_opt l = Some s ↔ encode_opt s = Some l.
Proof. split; [apply encode_decode | apply decode_encode]. Qed.

End Utf8.

(** ** Raw extraction and patching of the identifier field *)

Section Codec.

Lemma code_field_length content :
  (20 ≤ length content)%nat → length (code_field content) = 4%nat.
Proof. intros H. unfold code_field. rewrite length_drop, length_take. lia. Qed.

Lemma ForceGetCode_regular w file_path content :
  files w !! file_path = Some (Regular content) →
  (20 ≤ length content)%nat →
  ForceGetCode w file_path = Py.decode_opt (code_field content).
Proof.
  intros Hf Hlen. unfold ForceGetCode, isfile, read_all. rewrite Hf.
  cbn [negb mbind outcome_bind].
  destruct (Nat.ltb_spec (length content) 20) as [|_]; [lia |].
  unfold Py.decode. fold (code_field content).
  by destruct (Py.decode_opt (code_field content)).
Qed.

Lemma ForceGetCode_short w file_path content :
  files w !! file_path = Some (Regular content) →
  (length content < 20)%nat →
  ForceGetCode w file_path = None.
Proof.
  intros Hf Hlen. unfold ForceGetCode, isfile, read_all. rewrite Hf.
  cbn [negb mbind outcome_bind].
  by destruct (Nat.ltb_spec (length content) 20) as [_|]; [| lia].
Qed.

Lemma ForceGetCode_not_regular w file_path :
  isfile w file_path = false → ForceGetCode w file_path = None.
Proof. unfold ForceGetCode. by intros ->. Qed.

Lemma decode_ascii l :
  Forall (λ x, Byte.to_N x < 128) l →
  Py.decode_opt l = Some (map Byte.to_N l).
Proof.
  induction 1 as [|x l Hx _ IH]; [done |].
  rewrite Utf8.decode_opt_cons. cbv zeta.
  destruct (N.ltb_spec (Byte.to_N x) 128); [| lia]. by rewrite IH.
Qed.

Lemma encode_ascii s :
  Forall (λ c, c < 128) s →
  Py.encode_opt s = Some (map byte_of_N s).
Proof.
  induction 1 as [|c s Hc _ IH]; [done |].
  cbn [Py.encode_opt]. unfold Py.encode_char.
  destruct (N.ltb_spec c 128); [| lia]. by rewrite IH.
Qed.

(** What a successful [SetCode] has done. *)
Lemma SetCode_true w file_path new_code w' :
  SetCode w file_path new_code = (true, w') ↔
  length new_code = 4%nat
  ∧ ∃ content new_code_bytes,
      files w !! file_path = Some (Regular content)
      ∧ (20 ≤ length content)%nat
      ∧ Py.encode_opt new_code = Some new_code_bytes
      ∧ w' = World (<[file_path :=
                       Regular (take 16 content ++ new_code_bytes
                                ++ drop 20 content)]> (files w))
                   (signatures_json w).
Proof.
  unfold SetCode, isfile, read_all, write_all, Py.encode.
  destruct (Nat.eqb_spec (length new_code) 4) as [Hc|Hc]; cbn [negb];
    [| split; [done | by intros [? _]]].
  destruct (files w !! file_path) as [[|content]|] eqn:Hf;
    cbn [negb mbind outcome_bind try_except];
    try (split; [done | by intros (_ & c & e & ? & _)]).
  destruct (Nat.ltb_spec (length content) 20) as [Hl|Hl];
    cbn [mbind outcome_bind try_except].
  { split; [done | intros (_ & c & e & [= <-] & ? & _); lia]. }
  destruct (Py.encode_opt new_code) as [e|] eqn:He;
    cbn [mbind outcome_bind try_except].
  - split.
    + intros [= <-]. split; [done |]. by exists content, e.
    + by intros (_ & c & e' & [= <-] & _ & [= <-] & ->).
  - split; [done | by intros (_ & c & e & _ & _ & ? & _)].
Qed.

(** With a code whose encoding takes four bytes, a successful [SetCode]
    keeps the length of the file and every byte outside offsets 16..19,
    and touches neither another path nor the signature table. *)
Lemma SetCode_frame w file_path new_code new_code_bytes w' content :
  SetCode w file_path new_code = (true, w') →
  files w !! file_path = Some (Regular content) →
  Py.encode_opt new_code = Some new_code_bytes →
  length new_code_bytes = 4%nat →
  ∃ content',
    files w' !! file_path = Some (Regular content')
    ∧ length content' = length content
    ∧ code_field content' = new_code_bytes
    ∧ (∀ i, ¬ (16 ≤ i < 20)%nat → content' !! i = content !! i)
    ∧ (∀ other, other ≠ file_path → files w' !! other = files w !! other)
    ∧ signatures_json w' = signatures_json w.
Proof.
  intros (_ & c & e & Hc & Hl & He & ->)%SetCode_true Hf Henc Hlen.
  rewrite Hf in Hc. injection Hc as <-.
  rewrite Henc in He. injection He as <-.
  eexists. cbn. split; [apply lookup_insert_eq |].
  assert (H16 : length (take 16 content) = 16%nat)
    by (rewrite length_take; lia).
  repeat split.
  - rewrite !length_app, length_drop, H16. lia.
  - unfold code_field. rewrite take_app_ge by lia.
    rewrite drop_app_length' by done. rewrite H16.
    rewrite take_app_length' by lia. done.
  - intros i Hi. destruct (decide (i < 16)%nat) as [Hlt|Hge].
    + rewrite lookup_app_l by (rewrite H16; lia). by rewrite lookup_take_lt.
    + rewrite lookup_app_r by (rewrite H16; lia). rewrite H16.
      rewrite lookup_app_r by (rewrite Hlen; lia).
      rewrite lookup_drop, Hlen. f_equal. lia.
  - intros other Hne. by rewrite lookup_insert_ne.
Qed.

(** With such a code, [ForceGetCode] reads back what [SetCode] wrote. *)
Lemma SetCode_ForceGetCode w file_path new_code new_code_bytes w' :
  SetCode w file_path new_code = (true, w') →
  Py.encode_opt new_code = Some new_code_bytes →
  length new_code_bytes = 4%nat →
  ForceGetCode w' file_path = Some new_code.
Proof.
  intros HS Henc Hlen.
  pose proof HS as (_ & content & e & Hf & Hl & _)%SetCode_true.
  destruct (SetCode_frame _ _ _ _ _ _ HS Hf Henc Hlen)
    as (content' & Hf' & Hl' & Hfield & _).
  rewrite (ForceGetCode_regular _ _ _ Hf') by lia.
  rewrite Hfield. by apply Utf8.decode_encode.
Qed.

(** A code of four ASCII characters is always accepted on a regular file
    of at least 20 bytes. *)
Lemma SetCode_ascii_succeeds w file_path new_code content :
  files w !! file_path = Some (Regular content) →
  (20 ≤ length content)%nat →
  length new_code = 4%nat →
  Forall (λ c, c < 128) new_code →
  ∃ w', SetCode w file_path new_code = (true, w')
        ∧ ForceGetCode w' file_path = Some new_code.
Proof.
  intros Hf Hl Hc Hascii. pose proof (encode_ascii _ Hascii) as Henc.
  eexists. split.
  - apply SetCode_true. split; [done |]. by exists content, (map byte_of_N new_code).
  - eapply SetCode_ForceGetCode; [| exact Henc | by rewrite length_map].
    apply SetCode_true. split; [done |]. by exists content, (map byte_of_N new_code).
Qed.

End Codec.

(** C8, as stated, fails: on a regular file of 20 bytes whose bytes 16..19
    are not UTF-8 ForceGetCode returns None, and where they hold multi-byte
    characters it returns fewer than four characters. *)
Lemma ForceGetCode_undecodable_field :
  files garbled_world !! py "g.fxp" = Some (Regular garbled_preset)
  ∧ length garbled_preset = 20%nat
  ∧ ForceGetCode garbled_world (py "g.fxp") = None
  ∧ files garbled_world !! py "e.fxp" = Some (Regular accented_preset)
  ∧ length accented_preset = 20%nat
  ∧ ForceGetCode garbled_world (py "e.fxp") = Some [233; 233].
Proof. vm_compute. done. Qed.

(** C8 (amended). On a regular file of at least 20 bytes ForceGetCode returns
    the text whose UTF-8 encoding is the four bytes at offsets 16..19, and
    None when those bytes are the encoding of no text; when the four bytes
    are ASCII the result is the four characters they stand for.  The result
    depends on these four bytes only: not on the path, the rest of the
    content (so not on the magic constant) or the signature table.  On a
    regular file shorter than 20 bytes and on a path that is not a regular
    file it returns None. *)
Theorem ForceGetCode_spec w file_path :
  (∀ content,
     files w !! file_path = Some (Regular content) →
     (20 ≤ length content)%nat →
     length (code_field content) = 4%nat
     ∧ (∀ s, ForceGetCode w file_path = Some s
             ↔ Py.encode_opt s = Some (code_field content))
     ∧ (ForceGetCode w file_path = None
        ↔ ∀ s, Py.encode_opt s ≠ Some (code_field content))
     ∧ (Forall (λ x, Byte.to_N x < 128) (code_field content) →
        ForceGetCode w file_path = Some (map Byte.to_N (code_field content)))
     ∧ (∀ w' file_path' content',
          files w' !! file_path' = Some (Regular content') →
          (20 ≤ length content')%nat →
          code_field content' = code_field content →
          ForceGetCode w' file_path' = ForceGetCode w file_path))
  ∧ (∀ content,
       files w !! file_path = Some (Regular content) →
       (length content < 20)%nat →
       ForceGetCode w file_path = None)
  ∧ (isfile w file_path = false → ForceGetCode w file_path = None).
Proof.
  split; [| split].
  - intros content Hf Hlen.
    rewrite (ForceGetCode_regular _ _ _ Hf Hlen).
    split; [by apply code_field_length |].
    split; [intros s; apply Utf8.decode_opt_spec |]. split; [| split].
    + split.
      * intros Hn s Hs. apply Utf8.decode_opt_spec in Hs. congruence.
      * intros Hn. destruct (Py.decode_opt (code_field content)) as [s|] eqn:E;
          [| done].
        apply Utf8.decode_opt_spec in E. by destruct (Hn s).
    + apply decode_ascii.
    + intros w' file_path' content' Hf' Hlen' Heq.
      rewrite (ForceGetCode_regular _ _ _ Hf' Hlen'). by rewrite Heq.
  - apply ForceGetCode_short.
  - apply ForceGetCode_not_regular.
Qed.

Lemma ForceGetCode_spec_witness :
  ForceGetCode raw_world (py "notes.txt") = Some (py "WXYZ")
  ∧ ForceGetCode raw_world (py "tiny.fxp") = None
  ∧ ForceGetCode raw_world (py "dir") = None.
Proof.
  pose proof (ForceGetCode_spec raw_world (py "notes.txt")) as (H1 & _ & _).
  pose proof (ForceGetCode_spec raw_world (py "tiny.fxp")) as (_ & H2 & _).
  pose proof (ForceGetCode_spec raw_world (py "dir")) as (_ & _ & H3).
  split; [| split].
  - destruct (H1 (lit "0123456789abcdefWXYZ and more")) as (_ & _ & _ & Ha & _).
    + vm_compute. reflexivity.
    + vm_compute. lia.
    + rewrite Ha; [reflexivity |].
      vm_compute. repeat constructor.
  - apply (H2 (lit "CcnK")).
    + vm_compute. reflexivity.
    + vm_compute. lia.
  - apply H3. vm_compute. reflexivity.
Defined.

(** C4. The claim: a successful SetCode with a four-character code changes
    bytes 16..19 only and keeps the length of the file.  The code tests the
    number of characters, not of encoded bytes: with [éééé] it succeeds,
    puts eight bytes in the place of four, and the file grows from 27 to 31
    bytes with the payload moved four places up. *)
Theorem SetCode_non_ascii_grows_file :
  length accent_code = 4%nat
  ∧ files loose_world !! py "p.fxp"
    = Some (Regular (lit "CcnKAAAA00000000QQQQpayload"))
  ∧ SetCode loose_world (py "p.fxp") accent_code
    = (true,
       World {[ py "p.fxp" :=
                  Regular (lit "CcnKAAAA00000000"
                           ++ [xc3; xa9; xc3; xa9; xc3; xa9; xc3; xa9]
                           ++ lit "payload") ]}
             (Table loose_table))
  ∧ length (lit "CcnKAAAA00000000QQQQpayload") = 27%nat
  ∧ length (lit "CcnKAAAA00000000"
            ++ [xc3; xa9; xc3; xa9; xc3; xa9; xc3; xa9]
            ++ lit "payload") = 31%nat
  ∧ lit "CcnKAAAA00000000QQQQpayload" !! 20%nat = Some "p"%byte
  ∧ (lit "CcnKAAAA00000000"
     ++ [xc3; xa9; xc3; xa9; xc3; xa9; xc3; xa9]
     ++ lit "payload") !! 20%nat = Some xc3.
Proof. vm_compute. done. Qed.

(** C5. The claim: after SetCode with a four-character code, ForceGetCode
    returns that code.  With [éééé] SetCode succeeds and ForceGetCode then
    reads the first four of the eight bytes written: it returns [éé]. *)
Theorem SetCode_non_ascii_read_back :
  (SetCode loose_world (py "p.fxp") accent_code).1 = true
  ∧ ForceGetCode (SetCode loose_world (py "p.fxp") accent_code).2 (py "p.fxp")
    = Some [233; 233]
  ∧ Some [233; 233] ≠ Some accent_code.
Proof. vm_compute. done. Qed.

(** * Further properties of the code *)

(** ** The extension test and the header *)

Section Extension.

Lemma endswith_suffix s suffix :
  Py.endswith s suffix = true ↔ ∃ stem, s = stem ++ suffix.
Proof.
  unfold Py.endswith, Py.str_eqb. rewrite andb_true_iff, bool_decide_eq_true.
  rewrite Nat.leb_le. split.
  - intros [H Hl]. exists (take (length s - length suffix) s).
    transitivity (take (length s - length suffix) s
                  ++ drop (length s - length suffix) s).
    + by rewrite take_drop.
    + by rewrite H.
  - intros [stem ->]. rewrite length_app. split; [| lia].
    replace (length stem + length suffix - length suffix)%nat
      with (length stem) by lia.
    by rewrite drop_app_length.
Qed.

Lemma lower_char_dot d : Py.lower_char d = 46 ↔ d = 46.
Proof.
  unfold Py.lower_char.
  destruct (N.leb_spec 65 d); destruct (N.leb_spec d 90); cbn; lia.
Qed.

Lemma lower_char_letter d c :
  97 ≤ c ≤ 122 → Py.lower_char d = c ↔ d = c ∨ d + 32 = c.
Proof.
  unfold Py.lower_char. intros Hc.
  destruct (N.leb_spec 65 d); destruct (N.leb_spec d 90); cbn; lia.
Qed.

Lemma lower_suffix4 file_path a b c d :
  (∃ stem, Py.lower file_path = stem ++ [a; b; c; d]) ↔
  ∃ stem a' b' c' d',
    file_path = stem ++ [a'; b'; c'; d']
    ∧ Py.lower_char a' = a ∧ Py.lower_char b' = b
    ∧ Py.lower_char c' = c ∧ Py.lower_char d' = d.
Proof.
  unfold Py.lower. split.
  - intros [stem H]. apply map_eq_app in H as (l1 & l2 & -> & _ & H2).
    destruct l2 as [|a' [|b' [|c' [|d' [|? ?]]]]]; try discriminate.
    injection H2 as <- <- <- <-. by exists l1, a', b', c', d'.
  - intros (stem & a' & b' & c' & d' & -> & <- & <- & <- & <-).
    exists (map Py.lower_char stem). by rewrite map_app.
Qed.

Lemma endswith_any_preset file_path :
  Py.endswith_any (Py.lower file_path) [py ".fxp"; py ".fxb"] = true
  ↔ preset_extension file_path.
Proof.
  unfold Py.endswith_any. cbn [existsb]. rewrite orb_false_r, orb_true_iff.
  rewrite !endswith_suffix.
  change (py ".fxp") with [46; 102; 120; 112].
  change (py ".fxb") with [46; 102; 120; 98].
  rewrite !lower_suffix4. unfold preset_extension. split.
  - intros [H | H]; destruct H as (stem & d & f & x & e & -> & Hd & Hf & Hx & He);
      exists stem, d, f, x, e;
      apply (proj1 (lower_char_dot d)) in Hd;
      apply (lower_char_letter f 102) in Hf; try lia;
      apply (lower_char_letter x 120) in Hx; try lia.
    + apply (lower_char_letter e 112) in He; try lia.
      split; [done |]. repeat split; lia.
    + apply (lower_char_letter e 98) in He; try lia.
      split; [done |]. repeat split; lia.
  - intros (stem & d & f & x & e & -> & Hd & Hf & Hx & He).
    assert (Hd' : Py.lower_char d = 46) by by apply lower_char_dot.
    assert (Hf' : Py.lower_char f = 102) by (apply lower_char_letter; lia).
    assert (Hx' : Py.lower_char x = 120) by (apply lower_char_letter; lia).
    destruct (decide (e = 112 ∨ e = 80)) as [Hp | Hb].
    + left. exists stem, d, f, x, e. repeat split; try done.
      apply lower_char_letter; lia.
    + right. exists stem, d, f, x, e. repeat split; try done.
      apply lower_char_letter; lia.
Qed.

End Extension.

(** X1. _read_header returns a header exactly for a regular file whose path
    ends with .fxp or .fxb in any mix of case and whose content starts with
    the four magic bytes; the header is then the first 20 bytes of the
    content (all of it when the file is shorter), so it has between 4 and 20
    bytes and starts with the magic. *)
Theorem read_header_characterised w file_path header :
  _read_header w file_path = Some header ↔
  ∃ content,
    files w !! file_path = Some (Regular content)
    ∧ preset_extension file_path
    ∧ take 4 content = magic
    ∧ header = take 20 content
    ∧ (4 ≤ length header ≤ 20)%nat
    ∧ take 4 header = magic.
Proof.
  split.
  - intros H. pose proof (read_header_length _ _ _ H) as [Hl Hm].
    apply read_header_Some in H as (content & Hf & He & -> & Hmc).
    exists content. by rewrite <- endswith_any_preset.
  - intros (content & Hf & He & Hm & -> & _).
    apply read_header_Some. exists content. by rewrite endswith_any_preset.
Qed.

Lemma read_header_characterised_witness :
  _read_header mixed_case_world (py "Lead.FxB") = Some (take 20 loose_preset).
Proof.
  apply (proj2 (read_header_characterised mixed_case_world (py "Lead.FxB")
                  (take 20 loose_preset))).
  exists loose_preset. split; [reflexivity |]. split.
  - exists (py "Lead"), 46, 70, 120, 66.
    split; [reflexivity |]. repeat split; auto.
  - repeat split; vm_compute; congruence || lia.
Defined.

(** ** The resolvers *)

Section ResolverShape.

Variable header : bytes.
Variables f g : plugin → str.

(** The loop takes the same turns whatever the field asked for: how a run
    for the field [f] ends tells how it went, and how the run for [g]
    ends. *)
Lemma scan_fields table :
  match scan f header table with
  | Return None =>
      encodable table ∧ (∀ p, p ∈ table → ¬ matches header p)
      ∧ scan g header table = Return None
  | Return (Some x) =>
      ∃ i r,
        table !! i = Some r ∧ matches header r
        ∧ (∀ j q, (j < i)%nat → table !! j = Some q → ¬ matches header q)
        ∧ x = Py.strip (f r)
        ∧ scan g header table = Return (Some (Py.strip (g r)))
  | Raise e =>
      e = UnicodeEncodeError
      ∧ (∃ i r,
           table !! i = Some r ∧ Py.encode_opt (stripped_code r) = None
           ∧ (∀ j q, (j < i)%nat → table !! j = Some q → ¬ matches header q))
      ∧ scan g header table = Raise e
  end.
Proof.
  induction table as [|p table IH].
  - cbn. split; [constructor |]. split; [by intros p ?%elem_of_nil | done].
  - cbn [scan]. unfold Py.encode.
    destruct (Py.encode_opt (stripped_code p)) as [c|] eqn:Ec; cbn.
    + destruct (Py.contains header c) eqn:Hc.
      * exists 0%nat, p. split; [done |]. split.
        { exists c. split; [done | by apply contains_occurs]. }
        split; [intros; lia | done].
      * assert (Hp : ¬ matches header p).
        { intros (c' & Hc' & Ho). rewrite Ec in Hc'. injection Hc' as <-.
          apply contains_occurs in Ho. congruence. }
        destruct (scan f header table) as [[x|]|e].
        -- destruct IH as (i & r & Hi & Hm & Hb & Hx & Hg).
           exists (S i), r. split; [done |]. split; [done |].
           split; [| done].
           intros [|j] q Hj Hq; [by injection Hq as <- |].
           apply (Hb j); [lia | done].
        -- destruct IH as (He & Hn & Hg). split; [by constructor |].
           split; [| done].
           intros q [-> | Hq]%elem_of_cons; [done | by apply Hn].
        -- destruct IH as (He & (i & r & Hi & Hr & Hb) & Hg).
           split; [done |]. split; [| done].
           exists (S i), r. split; [done |]. split; [done |].
           intros [|j] q Hj Hq; [by injection Hq as <- |].
           apply (Hb j); [lia | done].
    + split; [done |]. split; [| done].
      exists 0%nat, p. split; [done |]. split; [done | intros; lia].
Qed.

End ResolverShape.

(** The three cases in which the resolvers stop before the loop. *)
Lemma resolve_absent field w file_path :
  _read_header w file_path = None
  ∨ signatures_json w = Missing
  ∨ signatures_json w = Table [] →
  resolve field w file_path = Return None.
Proof.
  unfold resolve, _load_signatures, json_load.
  intros [-> | [-> | ->]]; [done | |];
    by destruct (_read_header w file_path) as [[|]|].
Qed.

(** X2. An answer of GetCode comes from the table: when GetCode returns a
    code, the file has a valid header, and the code is the trimmed code of
    the first record of the table whose trimmed, encoded code occurs in that
    header; the trimmed codes of the records before it can be encoded and do
    not occur. *)
Theorem GetCode_answer_from_table w file_path c :
  GetCode w file_path = Return (Some c) →
  ∃ header table i r,
    _read_header w file_path = Some header
    ∧ signatures_json w = Table table
    ∧ table !! i = Some r
    ∧ c = Py.strip (code r)
    ∧ code_occurs header r
    ∧ (∀ j q, (j < i)%nat → table !! j = Some q →
              code_encodable q ∧ ¬ code_occurs header q).
Proof.
  unfold GetCode.
  destruct (_read_header w file_path) as [header|] eqn:Hh;
    [| by rewrite resolve_absent by auto].
  destruct (signatures_json w) as [| |table] eqn:Ht;
    [by rewrite resolve_absent by auto | |].
  { unfold resolve, _load_signatures, json_load. rewrite Hh, Ht.
    by destruct header. }
  rewrite (resolve_table _ header w file_path table) by done.
  intros (i & r & Hi & Hm & Hb & ->)%scan_Some_inv.
  by exists header, table, i, r.
Qed.

Lemma GetCode_answer_from_table_witness :
  ∃ i r,
    padded_table !! i = Some r
    ∧ py "AAAA" = Py.strip (code r)
    ∧ code_occurs (take 20 loose_preset) r.
Proof.
  destruct (GetCode_answer_from_table padded_world (py "p.fxp") (py "AAAA"))
    as (header & table & i & r & Hh & Ht & Hi & Hc & Ho & _).
  - vm_compute. reflexivity.
  - injection Ht as <-. vm_compute in Hh. injection Hh as <-.
    by exists i, r.
Defined.

(** X3. Each of these is enough for GetCode, GetName and GetCompany to return
    None: the file has no valid header (the table is not read then, so also
    when signatures.json is not JSON); signatures.json is missing; or the
    table loads, the trimmed code of every record can be encoded, and none
    of them, encoded, occurs in the header. *)
Theorem resolvers_return_none w file_path :
  _read_header w file_path = None
  ∨ signatures_json w = Missing
  ∨ (∃ header table,
       _read_header w file_path = Some header
       ∧ signatures_json w = Table table
       ∧ ∀ p, p ∈ table → code_encodable p ∧ ¬ code_occurs header p) →
  GetCode w file_path = Return None
  ∧ GetName w file_path = Return None
  ∧ GetCompany w file_path = Return None.
Proof.
  unfold GetCode, GetName, GetCompany.
  intros [H | [H | (header & table & Hh & Ht & Hno)]].
  - by rewrite !resolve_absent by auto.
  - by rewrite !resolve_absent by auto.
  - rewrite !(resolve_table _ header w file_path table) by done.
    repeat split; by apply scan_none_all.
Qed.

Lemma resolvers_return_none_witness :
  GetCode stray_world (py "notes.txt") = Return None
  ∧ GetName unknown_world (py "u.fxp") = Return None.
Proof.
  split.
  - apply (resolvers_return_none stray_world (py "notes.txt")).
    left. vm_compute. reflexivity.
  - apply (resolvers_return_none unknown_world (py "u.fxp")).
    right. right. exists plain_preset, [Plugin (py " ZZZZ ") (py "Other")
                                               (py "Nobody")].
    split; [vm_compute; reflexivity |]. split; [reflexivity |].
    intros p ->%list_elem_of_singleton. split.
    + by exists (lit "ZZZZ").
    + intros (c & Hc & Ho). vm_compute in Hc. injection Hc as <-.
      apply contains_occurs in Ho. vm_compute in Ho. discriminate.
Defined.



(** ** Patching the identifier field *)

Section Patch.

Lemma encode_char_length c x :
  Py.encode_char c = Some x →
  (1 ≤ length x)%nat ∧ (length x = 1%nat ↔ c < 128).
Proof.
  unfold Py.encode_char.
  destruct (N.ltb_spec c 128); [intros [= <-]; cbn; split; [lia | done] |].
  destruct (N.ltb_spec c 2048); [intros [= <-]; cbn; split; lia |].
  destruct (N.ltb_spec c 65536).
  { destruct (_ && _); [done |]. intros [= <-]; cbn; split; lia. }
  destruct (N.ltb_spec c 1114112); [| done].
  intros [= <-]; cbn; split; lia.
Qed.

Lemma encode_opt_length s : ∀ e,
  Py.encode_opt s = Some e →
  (length s ≤ length e)%nat
  ∧ (length e = length s ↔ Forall (λ c, c < 128) s).
Proof.
  induction s as [|c s IH]; intros e; cbn [Py.encode_opt].
  - intros [= <-]. split; [done |]. split; [constructor | done].
  - destruct (Py.encode_char c) as [x|] eqn:Ec; [| done].
    destruct (Py.encode_opt s) as [y|] eqn:Es; [| done].
    intros [= <-]. destruct (IH y eq_refl) as [Hle Hiff].
    destruct (encode_char_length _ _ Ec) as [H1 Hc].
    rewrite length_app. cbn [length]. split; [lia |]. split.
    + intros Hl. constructor; [apply Hc; lia | apply Hiff; lia].
    + intros [Hc' Hs']%Forall_cons. apply Hc in Hc'. apply Hiff in Hs'. lia.
Qed.

(** The four cases of failure of [SetCode], one after the other as the
    source tests them. *)
Lemma SetCode_false w file_path new_code :
  length new_code ≠ 4%nat
  ∨ isfile w file_path = false
  ∨ (∃ content, files w !! file_path = Some (Regular content)
                ∧ (length content < 20)%nat)
  ∨ Py.encode_opt new_code = None →
  SetCode w file_path new_code = (false, w).
Proof.
  unfold SetCode, isfile, read_all, Py.encode.
  destruct (Nat.eqb_spec (length new_code) 4) as [Hc|Hc]; cbn [negb];
    [| done].
  destruct (files w !! file_path) as [[|content]|] eqn:Hf; cbn [negb];
    try done.
  cbn [mbind outcome_bind].
  destruct (Nat.ltb_spec (length content) 20) as [Hl|Hl]; [done |].
  destruct (Py.encode_opt new_code) as [e|] eqn:He; [| done].
  intros [? | [? | [(c & [= <-] & ?) | ?]]]; try done. lia.
Qed.

Lemma SetCode_outcome w file_path new_code :
  SetCode w file_path new_code = (false, w)
  ∨ ∃ w', SetCode w file_path new_code = (true, w').
Proof.
  unfold SetCode, isfile, read_all, write_all, Py.encode.
  destruct (negb _); [by left |].
  destruct (files w !! file_path) as [[|content]|] eqn:Hf; cbn [negb];
    try by left.
  cbn [mbind outcome_bind].
  destruct (_ <? _)%nat; [by left |].
  destruct (Py.encode_opt new_code) as [e|]; [| by left].
  right. by eexists.
Qed.

End Patch.

(** X5. SetCode returns False in exactly four situations, each of them met
    before the file is opened for writing: the code has not four characters;
    the path is not a regular file; the file has fewer than 20 bytes; or the
    code cannot be encoded (it holds a lone surrogate).  Nothing is changed
    then. *)
Theorem SetCode_failure w file_path new_code w' :
  SetCode w file_path new_code = (false, w') ↔
  w' = w
  ∧ (length new_code ≠ 4%nat
     ∨ isfile w file_path = false
     ∨ (∃ content, files w !! file_path = Some (Regular content)
                   ∧ (length content < 20)%nat)
     ∨ Py.encode_opt new_code = None).
Proof.
  split.
  - intros H.
    destruct (SetCode_outcome w file_path new_code) as [Hf | [w'' Ht]];
      [| congruence].
    rewrite Hf in H. injection H as <-. split; [done |].
    destruct (decide (length new_code = 4%nat)) as [Hc|]; [| auto].
    destruct (files w !! file_path) as [[|content]|] eqn:Hfile;
      try (right; left; unfold isfile; by rewrite Hfile).
    destruct (decide (length content < 20)%nat) as [|Hl];
      [right; right; left; by exists content |].
    destruct (Py.encode_opt new_code) as [e|] eqn:He; [| auto].
    assert (Ht : SetCode w file_path new_code
                 = (true, World (<[file_path :=
                                     Regular (take 16 content ++ e
                                              ++ drop 20 content)]> (files w))
                                (signatures_json w))).
    { apply SetCode_true. split; [done |]. exists content, e.
      repeat split; try done. lia. }
    congruence.
  - intros [-> H]. by apply SetCode_false.
Qed.

Lemma SetCode_failure_witness :
  SetCode patch_world (py "q.fxp") (py "ABCD") = (false, patch_world)
  ∧ SetCode patch_world (py "p.fxp") (py "ABC") = (false, patch_world).
Proof.
  split.
  - apply (proj2 (SetCode_failure patch_world (py "q.fxp") (py "ABCD")
                    patch_world)).
    split; [reflexivity |]. right. right. left.
    exists short_preset. split; [reflexivity | vm_compute; lia].
  - apply (proj2 (SetCode_failure patch_world (py "p.fxp") (py "ABC")
                    patch_world)).
    split; [reflexivity |]. left. vm_compute. lia.
Defined.

(** X6. With a code of four ASCII characters SetCode succeeds on every
    regular file of at least 20 bytes, whether or not it is a preset.  The
    file keeps its length, bytes 16..19 become the four character codes,
    and every other byte of it is as before. *)
Theorem SetCode_ascii_in_place w file_path new_code content :
  files w !! file_path = Some (Regular content) →
  (20 ≤ length content)%nat →
  length new_code = 4%nat →
  Forall (λ c, c < 128) new_code →
  ∃ w' content',
    SetCode w file_path new_code = (true, w')
    ∧ files w' !! file_path = Some (Regular content')
    ∧ length content' = length content
    ∧ code_field content' = map byte_of_N new_code
    ∧ map Byte.to_N (code_field content') = new_code
    ∧ (∀ i, ¬ (16 ≤ i < 20)%nat → content' !! i = content !! i).
Proof.
  intros Hf Hl Hc Hascii. pose proof (encode_ascii _ Hascii) as Henc.
  assert (HS : SetCode w file_path new_code
               = (true, World (<[file_path :=
                                   Regular (take 16 content
                                            ++ map byte_of_N new_code
                                            ++ drop 20 content)]> (files w))
                              (signatures_json w))).
  { apply SetCode_true. split; [done |].
    by exists content, (map byte_of_N new_code). }
  destruct (SetCode_frame _ _ _ _ _ _ HS Hf Henc)
    as (content' & Hf' & Hl' & Hfield & Hout & Hother & Hsig);
    [by rewrite length_map |].
  eexists _, content'. split; [exact HS |]. repeat split; try done.
  rewrite Hfield, map_map. rewrite <- (map_id new_code) at 2.
  apply map_ext_Forall. eapply Forall_impl; [exact Hascii |].
  intros c Hlt. cbn in *. apply Utf8.to_N_byte_of_N. lia.
Qed.

Lemma SetCode_ascii_in_place_witness :
  ∃ w' content',
    SetCode patch_world (py "p.fxp") (py "Done") = (true, w')
    ∧ files w' !! py "p.fxp" = Some (Regular content')
    ∧ length content' = 27%nat
    ∧ code_field content' = lit "Done".
Proof.
  destruct (SetCode_ascii_in_place patch_world (py "p.fxp") (py "Done")
              loose_preset)
    as (w' & content' & HS & Hf & Hl & Hc & _).
  - reflexivity.
  - vm_compute. lia.
  - reflexivity.
  - repeat constructor.
  - exists w', content'. split; [exact HS |]. split; [exact Hf |].
    split; [exact Hl | exact Hc].
Defined.

(** X7. After a successful SetCode, ForceGetCode on the same path returns the
    code that was set if and only if all four characters of the code are
    ASCII (their encoding then takes exactly four bytes). *)
Theorem SetCode_read_back_iff_ascii w file_path new_code w' :
  SetCode w file_path new_code = (true, w') →
  (ForceGetCode w' file_path = Some new_code
   ↔ Forall (λ c, c < 128) new_code).
Proof.
  intros HS.
  pose proof HS as (Hc & content & e & Hf & Hl & He & ->)%SetCode_true.
  destruct (encode_opt_length _ _ He) as [Hle Hiff]. split.
  - intros HF. apply Hiff. rewrite Hc.
    rewrite (ForceGetCode_regular _ _ (take 16 content ++ e ++ drop 20 content))
      in HF.
    + apply Utf8.decode_opt_spec in HF. rewrite He in HF. injection HF as HF.
      apply (f_equal length) in HF. unfold code_field in HF.
      rewrite length_drop, length_take, !length_app, length_take, length_drop
        in HF. lia.
    + cbn. apply lookup_insert_eq.
    + rewrite !length_app, length_take, length_drop. lia.
  - intros Hascii. eapply SetCode_ForceGetCode; [exact HS | exact He |].
    apply Hiff in Hascii. lia.
Qed.

Lemma SetCode_read_back_iff_ascii_witness :
  ForceGetCode (SetCode patch_world (py "p.fxp") (py "Done")).2 (py "p.fxp")
  = Some (py "Done").
Proof.
  apply (proj2 (SetCode_read_back_iff_ascii patch_world (py "p.fxp")
                  (py "Done")
                  (SetCode patch_world (py "p.fxp") (py "Done")).2
                  eq_refl)).
  repeat constructor.
Defined.

Section PatchHeader.

Lemma patched_prefix (content e : bytes) n :
  (n ≤ 16)%nat → (20 ≤ length content)%nat →
  take n (take 16 content ++ e ++ drop 20 content) = take n content.
Proof.
  intros Hn Hl. rewrite take_app_le by (rewrite length_take; lia).
  rewrite take_take. f_equal. lia.
Qed.

Lemma patched_suffix (content e : bytes) :
  (20 ≤ length content)%nat → length e = 4%nat →
  drop 20 (take 16 content ++ e ++ drop 20 content) = drop 20 content.
Proof.
  intros Hl He. rewrite drop_app_ge by (rewrite length_take; lia).
  rewrite length_take. replace (20 - 16 `min` length content)%nat with 4%nat
    by lia.
  rewrite drop_app_ge by lia. rewrite He. done.
Qed.

Lemma patched_header (content e : bytes) :
  (20 ≤ length content)%nat → length e = 4%nat →
  take 20 (take 16 content ++ e ++ drop 20 content) = take 16 content ++ e.
Proof.
  intros Hl He. rewrite app_assoc.
  rewrite take_app_le by (rewrite length_app, length_take; lia).
  rewrite take_ge; [done |]. rewrite length_app, length_take. lia.
Qed.

End PatchHeader.

(** X8. A successful SetCode, with any code, keeps the first 16 bytes of the
    file: the file is a valid preset afterwards exactly when it was one
    before, and the first 16 bytes of its header are unchanged. *)
Theorem SetCode_keeps_validity w file_path new_code w' :
  SetCode w file_path new_code = (true, w') →
  (is_Some (_read_header w' file_path) ↔ is_Some (_read_header w file_path))
  ∧ (∀ h h',
       _read_header w file_path = Some h →
       _read_header w' file_path = Some h' →
       take 16 h' = take 16 h ∧ length h' = 20%nat).
Proof.
  intros (Hc & content & e & Hf & Hl & He & ->)%SetCode_true.
  assert (Hf' : files (World (<[file_path :=
                  Regular (take 16 content ++ e ++ drop 20 content)]>
                  (files w)) (signatures_json w)) !! file_path
                = Some (Regular (take 16 content ++ e ++ drop 20 content)))
    by apply lookup_insert_eq.
  destruct (encode_opt_length _ _ He) as [Hle _].
  split.
  - split; intros [h Hh]; apply read_header_Some in Hh
      as (c & Hfc & Hext & -> & Hm); eexists; apply read_header_Some.
    + rewrite Hf' in Hfc. injection Hfc as <-.
      exists content. rewrite patched_prefix in Hm by lia. done.
    + rewrite Hf in Hfc. injection Hfc as <-.
      eexists. split; [exact Hf' |]. rewrite (patched_prefix _ _ 4) by lia. done.
  - intros h h' (c & Hfc & _ & -> & _)%read_header_Some
      (c' & Hfc' & _ & -> & _)%read_header_Some.
    rewrite Hf in Hfc. injection Hfc as <-.
    rewrite Hf' in Hfc'. injection Hfc' as <-.
    rewrite !take_take. split.
    + replace (16 `min` 20)%nat with 16%nat by lia.
      by rewrite patched_prefix by lia.
    + rewrite length_take, !length_app, length_take, length_drop. lia.
Qed.

Lemma SetCode_keeps_validity_witness :
  is_Some (_read_header (SetCode patch_world (py "p.fxp") accent_code).2
                        (py "p.fxp")).
Proof.
  apply (proj2 (proj1 (SetCode_keeps_validity patch_world (py "p.fxp")
                         accent_code
                         (SetCode patch_world (py "p.fxp") accent_code).2
                         eq_refl))).
  eexists. vm_compute. reflexivity.
Defined.

(** X9. Patching twice is patching once with the last code: after a
    successful SetCode with four ASCII characters, a second SetCode on the
    same path gives the world that the second SetCode alone would have
    given; in particular setting the same ASCII code again changes
    nothing. *)
Theorem SetCode_last_write_wins w file_path code1 code2 w1 w2 :
  Forall (λ c, c < 128) code1 →
  SetCode w file_path code1 = (true, w1) →
  SetCode w file_path code2 = (true, w2) →
  SetCode w1 file_path code2 = (true, w2)
  ∧ SetCode w1 file_path code1 = (true, w1).
Proof.
  intros Hascii
    (Hc1 & content & e1 & Hf & Hl & He1 & ->)%SetCode_true
    (Hc2 & content2 & e2 & Hf2 & _ & He2 & ->)%SetCode_true.
  rewrite Hf in Hf2. injection Hf2 as <-.
  assert (Hlen1 : length e1 = 4%nat).
  { destruct (encode_opt_length _ _ He1) as [_ Hiff].
    apply Hiff in Hascii. lia. }
  split; apply SetCode_true; (split; [done |]);
    exists (take 16 content ++ e1 ++ drop 20 content).
  - exists e2. split; [apply lookup_insert_eq |].
    split; [rewrite !length_app, length_take, length_drop; lia |].
    split; [done |]. cbn.
    rewrite insert_insert_eq, patched_prefix, patched_suffix by (done || lia).
    done.
  - exists e1. split; [apply lookup_insert_eq |].
    split; [rewrite !length_app, length_take, length_drop; lia |].
    split; [done |]. cbn.
    rewrite insert_insert_eq, patched_prefix, patched_suffix by (done || lia).
    done.
Qed.

Lemma SetCode_last_write_wins_witness :
  SetCode (SetCode patch_world (py "p.fxp") (py "Done")).2 (py "p.fxp")
          (py "Next")
  = SetCode patch_world (py "p.fxp") (py "Next").
Proof.
  refine (proj1 (SetCode_last_write_wins patch_world (py "p.fxp") (py "Done")
                   (py "Next")
                   (SetCode patch_world (py "p.fxp") (py "Done")).2
                   (SetCode patch_world (py "p.fxp") (py "Next")).2
                   _ eq_refl eq_refl)).
  repeat constructor.
Defined.

(** X10. Patching and resolving compose: after a successful SetCode with
    four ASCII characters on a valid preset, a table whose first record has
    that code as its trimmed code makes GetCode return the code, and GetName
    and GetCompany the trimmed name and company of that record. *)
Theorem SetCode_then_resolve w file_path new_code w' header r rest :
  _read_header w file_path = Some header →
  Forall (λ c, c < 128) new_code →
  SetCode w file_path new_code = (true, w') →
  signatures_json w = Table (r :: rest) →
  stripped_code r = new_code →
  GetCode w' file_path = Return (Some new_code)
  ∧ GetName w' file_path = Return (Some (Py.strip (name r)))
  ∧ GetCompany w' file_path = Return (Some (Py.strip (company r))).
Proof.
  intros Hh Hascii HS Ht Hr.
  pose proof HS as (Hc & content & e & Hf & Hl & He & ->)%SetCode_true.
  assert (Hlen : length e = 4%nat).
  { destruct (encode_opt_length _ _ He) as [_ Hiff].
    apply Hiff in Hascii. lia. }
  pose proof Hh as (c0 & Hf0 & Hext & _ & Hmagic)%read_header_Some.
  rewrite Hf in Hf0. injection Hf0 as <-.
  assert (Hh' : _read_header
                  (World (<[file_path :=
                              Regular (take 16 content ++ e
                                       ++ drop 20 content)]> (files w))
                         (signatures_json w)) file_path
                = Some (take 16 content ++ e)).
  { apply read_header_Some. eexists. split; [apply lookup_insert_eq |].
    split; [done |]. split; [by rewrite patched_header |].
    by rewrite (patched_prefix _ _ 4) by lia. }
  assert (Hm : matches (take 16 content ++ e) r).
  { exists e. split; [by rewrite Hr |].
    exists (take 16 content), []. by rewrite app_nil_r. }
  unfold GetCode, GetName, GetCompany.
  rewrite !(resolve_table _ _ _ _ _ Hh' Ht), !scan_hit by done.
  unfold stripped_code in Hr. by rewrite Hr.
Qed.

Lemma SetCode_then_resolve_witness :
  GetCode (SetCode patch_world (py "p.fxp") (py "Done")).2 (py "p.fxp")
  = Return (Some (py "Done"))
  ∧ GetName (SetCode patch_world (py "p.fxp") (py "Done")).2 (py "p.fxp")
    = Return (Some (py "Synth")).
Proof.
  destruct (SetCode_then_resolve patch_world (py "p.fxp") (py "Done")
              (SetCode patch_world (py "p.fxp") (py "Done")).2
              (take 20 loose_preset)
              (Plugin (py "Done") (py "Synth") (py "Maker")) [])
    as (Hc & Hn & _).
  - vm_compute. reflexivity.
  - repeat constructor.
  - reflexivity.
  - reflexivity.
  - reflexivity.
  - split; [exact Hc | exact Hn].
Defined.

(** ** The signature table: add, remove, edit *)

Section StripTwice.

Lemma lstrip_headed s : headed (Py.lstrip s).
Proof.
  induction s as [|c s IH]; [done |]. cbn.
  by destruct (Py.isspace c) eqn:E; [| cbn].
Qed.

Lemma lstrip_of_headed s : headed s → Py.lstrip s = s.
Proof. destruct s as [|c s]; [done |]. cbn. by intros ->. Qed.

Lemma lstrip_snoc l c :
  Py.isspace c = false → ∃ l', Py.lstrip (l ++ [c]) = l' ++ [c].
Proof.
  intros Hc. induction l as [|x l IH]; cbn.
  - rewrite Hc. by exists [].
  - destruct (Py.isspace x); [done |]. by exists (x :: l).
Qed.

Lemma rstrip_headed s : headed s → headed (Py.rstrip s).
Proof.
  unfold Py.rstrip. destruct s as [|c s]; [done |]. cbn [headed rev].
  intros Hc. destruct (lstrip_snoc (rev s) c Hc) as [l' ->].
  rewrite rev_app_distr. done.
Qed.

Lemma rstrip_rstrip s : Py.rstrip (Py.rstrip s) = Py.rstrip s.
Proof.
  unfold Py.rstrip. rewrite rev_involutive.
  by rewrite (lstrip_of_headed _ (lstrip_headed _)).
Qed.

Lemma strip_strip s : Py.strip (Py.strip s) = Py.strip s.
Proof.
  unfold Py.strip.
  rewrite (lstrip_of_headed (Py.rstrip (Py.lstrip s)))
    by apply rstrip_headed, lstrip_headed.
  apply rstrip_rstrip.
Qed.

End StripTwice.

Section StoreOps.

Lemma AddToDatabase_outcome w c n m :
  AddToDatabase w c n m = (false, w)
  ∨ AddToDatabase w c n m
    = (true, World (files w) (Table (table_of w ++ [trimmed c n m]))).
Proof.
  destruct (decide (length c = 4%nat)) as [Hc|Hc];
    [| left; apply AddToDatabase_rejects; auto].
  destruct n as [|n0 n]; [left; apply AddToDatabase_rejects; auto |].
  destruct m as [|m0 m]; [left; apply AddToDatabase_rejects; auto |].
  destruct (signatures_json w) as [| |table] eqn:Hs.
  - right. apply AddToDatabase_accepts; try done. by rewrite Hs.
  - left. unfold AddToDatabase, _load_signatures, json_load. rewrite Hs.
    by destruct (_ || _).
  - right. apply AddToDatabase_accepts; try done. by rewrite Hs.
Qed.

Lemma RemoveFromDatabase_outcome w c :
  RemoveFromDatabase w c =
    if decide (Exists (λ p, stripped_code p = Py.strip c) (table_of w))
    then (true, World (files w)
                      (Table (filter (λ p, stripped_code p ≠ Py.strip c)
                                     (table_of w))))
    else (false, w).
Proof.
  unfold RemoveFromDatabase, table_of, _load_signatures, json_load.
  destruct (signatures_json w) as [| |[|q table]] eqn:Hs; cbn [try_except mbind
    outcome_bind].
  - by rewrite decide_False by (by intros ?%Exists_nil).
  - by rewrite decide_False by (by intros ?%Exists_nil).
  - by rewrite decide_False by (by intros ?%Exists_nil).
  - set (data := q :: table).
    destruct (Nat.eqb_spec (length (filter (λ p, stripped_code p ≠ Py.strip c)
                                           data)) (length data)) as [E|E].
    + apply (proj1 (filter_length_eq _ _)) in E.
      rewrite decide_False; [done |].
      intros (p & Hp & Hpc)%Exists_exists.
      rewrite Forall_forall in E. by destruct (E p Hp).
    + rewrite decide_True; [done |].
      assert (E' : ¬ Forall (λ p, stripped_code p ≠ Py.strip c) data)
        by (intros HF; by apply (proj2 (filter_length_eq _ _)) in HF).
      apply not_Forall_Exists in E'; [| intros p; apply _].
      eapply Exists_impl; [exact E' |]. cbn. intros p Hp.
      by destruct (decide (stripped_code p = Py.strip c)).
Qed.

Lemma edit_first_Some data c nc nn nm data' :
  edit_first data c nc nn nm = Some data' ↔
  ∃ i old,
    data !! i = Some old
    ∧ stripped_code old = Py.strip c
    ∧ (∀ j q, (j < i)%nat → data !! j = Some q → stripped_code q ≠ Py.strip c)
    ∧ data' = <[i := trimmed nc nn nm]> data.
Proof.
  revert data'. induction data as [|p data IH]; intros data'; cbn.
  - split; [done | by intros (i & old & ? & _)].
  - case_decide as Hp.
    + split.
      * intros [= <-]. exists 0%nat, p. repeat split; try done. intros; lia.
      * intros ([|i] & old & Hi & Ho & Hb & ->); [done |].
        by destruct (Hb 0%nat p); [lia | |].
    + destruct (edit_first data c nc nn nm) as [d|]; cbn.
      * split.
        -- intros [= <-]. destruct (proj1 (IH d) eq_refl)
             as (i & old & Hi & Ho & Hb & ->).
           exists (S i), old. repeat split; try done.
           intros [|j] q Hj Hq; [by injection Hq as <- |].
           apply (Hb j); [lia | done].
        -- intros ([|i] & old & Hi & Ho & Hb & ->);
             [by injection Hi as -> |].
           cbn. do 2 f_equal.
           assert (Some d = Some (<[i := trimmed nc nn nm]> data)) as [= ->];
             [| done].
           apply IH. exists i, old. repeat split; try done.
           intros j q Hj Hq. apply (Hb (S j)); [lia | done].
      * split; [done |].
        intros ([|i] & old & Hi & Ho & Hb & ->); [by injection Hi as -> |].
        assert (None = Some (<[i := trimmed nc nn nm]> data)); [| done].
        apply IH. exists i, old. repeat split; try done.
        intros j q Hj Hq. apply (Hb (S j)); [lia | done].
Qed.

Lemma edit_first_None data c nc nn nm :
  edit_first data c nc nn nm = None ↔
  ∀ p, p ∈ data → stripped_code p ≠ Py.strip c.
Proof.
  induction data as [|p data IH]; cbn.
  - split; [by intros _ p ?%elem_of_nil | done].
  - case_decide as Hp.
    + split; [done |]. intros H. destruct (H p); [left | done].
    + destruct (edit_first data c nc nn nm) as [d|]; cbn.
      * split; [done |]. intros H.
        assert (Some d = None); [| done].
        apply IH. intros q Hq. apply H. by right.
      * split; [| done]. intros _ q [-> | Hq]%elem_of_cons; [done |].
        by apply (proj1 IH).
Qed.

Lemma EditDatabase_guard w c nc nn nm :
  length nc ≠ 4%nat ∨ nn = [] ∨ nm = [] →
  EditDatabase w c nc nn nm = (false, w).
Proof.
  intros H. unfold EditDatabase.
  destruct (empty nc) eqn:Ec; [done |].
  destruct (length nc =? 4)%nat eqn:El; [| done].
  apply Nat.eqb_eq in El.
  destruct H as [H | [-> | ->]]; [done | done |].
  cbn. by rewrite orb_true_r.
Qed.

Lemma EditDatabase_body w c nc nn nm :
  length nc = 4%nat → nn ≠ [] → nm ≠ [] →
  EditDatabase w c nc nn nm =
    match edit_first (table_of w) c nc nn nm with
    | Some data' => (true, World (files w) (Table data'))
    | None => (false, w)
    end.
Proof.
  intros Hc Hn Hm. unfold EditDatabase, table_of, _load_signatures, json_load.
  destruct nc as [|c0 nc]; [done |]. rewrite Hc.
  destruct nn as [|n0 nn]; [done |]. destruct nm as [|m0 nm]; [done |].
  cbn [empty orb negb Nat.eqb].
  destruct (signatures_json w) as [| |[|q table]]; try done.
  cbn [mbind outcome_bind try_except].
  by destruct (edit_first _ _ _ _ _).
Qed.

End StoreOps.



(** X12. A successful AddToDatabase whose three arguments hold no surrogate
    is seen by the next FetchDatabase: it returns the old table (empty if
    there was none) followed by one new record holding the three trimmed
    arguments.  Every old record keeps its place and the new one comes
    last. *)
Theorem AddToDatabase_then_fetch w c n m w' :
  no_surrogate c → no_surrogate n → no_surrogate m →
  AddToDatabase w c n m = (true, w') →
  FetchDatabase w'
  = Return (Some (table_of w
                  ++ [Plugin (Py.strip c) (Py.strip n) (Py.strip m)]))
  ∧ (∀ i r, table_of w !! i = Some r → table_of w' !! i = Some r)
  ∧ table_of w' !! length (table_of w)
    = Some (Plugin (Py.strip c) (Py.strip n) (Py.strip m))
  ∧ length (table_of w') = S (length (table_of w)).
Proof.
  intros _ _ _ H.
  destruct (AddToDatabase_outcome w c n m) as [Hf | Ht]; [congruence |].
  rewrite Ht in H. injection H as <-.
  unfold FetchDatabase, _load_signatures, json_load, table_of at 1 3 4. cbn.
  split; [done |]. split; [| split].
  - intros i r Hi. by apply lookup_app_l_Some.
  - rewrite lookup_app_r by lia. by rewrite Nat.sub_diag.
  - rewrite length_app. cbn. lia.
Qed.

Lemma AddToDatabase_then_fetch_witness :
  FetchDatabase (AddToDatabase padded_edit_world (py " New") (py "Name ")
                               (py "Maker")).2
  = Return (Some (padded_edit_table
                  ++ [Plugin (py "New") (py "Name") (py "Maker")])).
Proof.
  refine (proj1 (AddToDatabase_then_fetch padded_edit_world (py " New")
                   (py "Name ") (py "Maker")
                   (AddToDatabase padded_edit_world (py " New") (py "Name ")
                                  (py "Maker")).2
                   _ _ _ eq_refl));
    repeat constructor; lia.
Defined.

Lemma table_of_Table fs data : table_of (World fs (Table data)) = data.
Proof. reflexivity. Qed.

Lemma filter_all (P : plugin → Prop) `{!∀ x, Decision (P x)} l :
  Forall P l → filter P l = l.
Proof.
  induction 1 as [|x l Hx _ IH]; [done |].
  by rewrite filter_cons_True, IH.
Qed.

(** X13. Adding a record under a code without surrogates that no record has
    yet, trimmed, and then removing that code, gives back the table as it
    was: RemoveFromDatabase succeeds, and the records and their order are
    those from before the addition. *)
Theorem AddToDatabase_then_remove w c n m w' :
  no_surrogate c → no_surrogate n → no_surrogate m →
  AddToDatabase w c n m = (true, w') →
  (∀ p, p ∈ table_of w → Py.strip (code p) ≠ Py.strip c) →
  RemoveFromDatabase w' c = (true, World (files w) (Table (table_of w))).
Proof.
  intros _ _ _ H Hnew.
  destruct (AddToDatabase_outcome w c n m) as [Hf | Ht]; [congruence |].
  rewrite Ht in H. injection H as <-.
  rewrite RemoveFromDatabase_outcome, !table_of_Table.
  cbn [signatures_json files].
  assert (Hc : stripped_code (trimmed c n m) = Py.strip c)
    by apply strip_strip.
  rewrite decide_True.
  - rewrite filter_app, filter_cons_False, filter_nil by (by intros ?).
    rewrite app_nil_r, filter_all; [done |]. by apply Forall_forall.
  - apply Exists_app. right. by left.
Qed.

Lemma AddToDatabase_then_remove_witness :
  RemoveFromDatabase
    (AddToDatabase padded_edit_world (py " New") (py "Name ") (py "Maker")).2
    (py "New ")
  = (true, padded_edit_world).
Proof.
  refine (AddToDatabase_then_remove padded_edit_world (py " New")
            (py "Name ") (py "Maker")
            (AddToDatabase padded_edit_world (py " New") (py "Name ")
                           (py "Maker")).2
            _ _ _ eq_refl _);
    try (repeat constructor; lia).
  apply Forall_forall.
  repeat constructor; intros H; vm_compute in H; discriminate.
Defined.

Lemma resolve_code_in_table w file_path x :
  resolve code w file_path = Return (Some x) →
  ∃ r, r ∈ table_of w ∧ x = stripped_code r.
Proof.
  destruct (_read_header w file_path) as [header|] eqn:Hh;
    [| by rewrite resolve_absent by auto].
  unfold table_of.
  destruct (signatures_json w) as [| |table] eqn:Ht;
    [by rewrite resolve_absent by auto | |].
  { unfold resolve, _load_signatures, json_load. rewrite Hh, Ht.
    by destruct header. }
  rewrite (resolve_table _ header w file_path table) by done. intros Hc.
  pose proof (scan_fields header code code table) as H. rewrite Hc in H.
  destruct H as (i & r & Hi & _ & _ & -> & _).
  exists r. split; [by eapply list_elem_of_lookup_2 | done].
Qed.

(** X14. After a successful RemoveFromDatabase the code is gone for good: a
    second RemoveFromDatabase with the same code returns False and changes
    nothing, and GetCode returns that (trimmed) code for no file. *)
Theorem RemoveFromDatabase_twice w c w' :
  RemoveFromDatabase w c = (true, w') →
  RemoveFromDatabase w' c = (false, w')
  ∧ (∀ p, p ∈ table_of w' → stripped_code p ≠ Py.strip c)
  ∧ (∀ file_path, GetCode w' file_path ≠ Return (Some (Py.strip c)))
  ∧ files w' = files w.
Proof.
  rewrite RemoveFromDatabase_outcome. case_decide as He; [| done].
  intros [= <-].
  assert (Hgone : ∀ p,
            p ∈ filter (λ p, stripped_code p ≠ Py.strip c) (table_of w) →
            stripped_code p ≠ Py.strip c).
  { by intros p [? _]%list_elem_of_filter. }
  split; [| split; [| split]]; try done.
  - rewrite RemoveFromDatabase_outcome, !table_of_Table.
    cbn [signatures_json files].
    rewrite decide_False; [done |].
    intros (p & Hp & Hpc)%Exists_exists. by destruct (Hgone p).
  - intros file_path (r & Hr & Hx)%resolve_code_in_table.
    by destruct (Hgone r).
Qed.

Lemma RemoveFromDatabase_twice_witness :
  RemoveFromDatabase (RemoveFromDatabase edit_world (py "Dupl")).2 (py "Dupl")
  = (false, (RemoveFromDatabase edit_world (py "Dupl")).2).
Proof.
  exact (proj1 (RemoveFromDatabase_twice edit_world (py "Dupl")
                  (RemoveFromDatabase edit_world (py "Dupl")).2 eq_refl)).
Defined.

(** X15. A successful EditDatabase with new fields that hold no surrogate
    rewrites one record only: the first record, in table order, whose
    trimmed code is the trimmed code asked for.  It receives the three new
    trimmed fields; every other record, also a later one with the same
    trimmed code, is as before, and the table keeps its length and order. *)
Theorem EditDatabase_first_match w c nc nn nm w' :
  no_surrogate nc → no_surrogate nn → no_surrogate nm →
  EditDatabase w c nc nn nm = (true, w') →
  ∃ table i old,
    signatures_json w = Table table
    ∧ table !! i = Some old
    ∧ Py.strip (code old) = Py.strip c
    ∧ (∀ j q, (j < i)%nat → table !! j = Some q →
              Py.strip (code q) ≠ Py.strip c)
    ∧ signatures_json w'
      = Table (<[i := Plugin (Py.strip nc) (Py.strip nn) (Py.strip nm)]>
                 table)
    ∧ table_of w' !! i
      = Some (Plugin (Py.strip nc) (Py.strip nn) (Py.strip nm))
    ∧ (∀ j, j ≠ i → table_of w' !! j = table !! j)
    ∧ length (table_of w') = length table.
Proof.
  intros _ _ _ H.
  destruct (decide (length nc = 4%nat)) as [Hc|];
    [| by rewrite EditDatabase_guard in H by auto].
  destruct nn as [|n0 nn]; [by rewrite EditDatabase_guard in H by auto |].
  destruct nm as [|m0 nm]; [by rewrite EditDatabase_guard in H by auto |].
  rewrite EditDatabase_body in H by done.
  destruct (edit_first _ _ _ _ _) as [data'|] eqn:E; [| done].
  injection H as <-.
  apply edit_first_Some in E as (i & old & Hi & Ho & Hb & ->).
  unfold table_of in Hi, Hb |- *.
  destruct (signatures_json w) as [| |table]; try done.
  exists table, i, old. cbn. repeat split; try done.
  - apply list_lookup_insert_eq. by eapply lookup_lt_Some.
  - intros j Hj. by apply list_lookup_insert_ne.
  - apply length_insert.
Qed.

Lemma EditDatabase_first_match_witness :
  signatures_json
    (EditDatabase padded_edit_world (py "Dupl") (py "Edit") (py " Four")
                  (py "Co")).2
  = Table [Plugin (py "Solo") (py "One") (py "Co");
           Plugin (py "Edit") (py "Four") (py "Co");
           Plugin (py "Dupl ") (py "Three") (py "Co")].
Proof.
  assert (Hnc : no_surrogate (py "Edit")) by (repeat constructor; lia).
  assert (Hnn : no_surrogate (py " Four")) by (repeat constructor; lia).
  assert (Hnm : no_surrogate (py "Co")) by (repeat constructor; lia).
  destruct (EditDatabase_first_match padded_edit_world (py "Dupl") (py "Edit")
              (py " Four") (py "Co")
              (EditDatabase padded_edit_world (py "Dupl") (py "Edit")
                            (py " Four") (py "Co")).2
              Hnc Hnn Hnm eq_refl)
    as (table & i & old & Ht & Hi & Ho & Hb & Hs & _).
  injection Ht as <-. rewrite Hs.
  destruct i as [|[|[|i]]].
  - injection Hi as <-. vm_compute in Ho. discriminate.
  - reflexivity.
  - destruct (Hb 1%nat (Plugin (py " Dupl") (py "Two") (py "Co")));
      [lia | reflexivity | reflexivity].
  - discriminate.
Defined.

(** X16. EditDatabase refuses, returning False and changing nothing, in each
    of these situations: the new code has not four characters, the new name
    is empty or the new company is empty (tested before trimming);
    signatures.json is missing or is not JSON; or the table holds no record
    whose trimmed code is the trimmed code asked for (so also when the table
    is empty). *)
Theorem EditDatabase_refuses w c nc nn nm :
  length nc ≠ 4%nat ∨ nn = [] ∨ nm = []
  ∨ signatures_json w = Missing
  ∨ signatures_json w = NotJson
  ∨ (∃ table,
       signatures_json w = Table table
       ∧ ∀ p, p ∈ table → Py.strip (code p) ≠ Py.strip c) →
  EditDatabase w c nc nn nm = (false, w).
Proof.
  intros H.
  destruct (decide (length nc = 4%nat)) as [Hc|];
    [| by apply EditDatabase_guard; left].
  destruct nn as [|n0 nn]; [by apply EditDatabase_guard; right; left |].
  destruct nm as [|m0 nm]; [by apply EditDatabase_guard; right; right |].
  rewrite EditDatabase_body by done.
  destruct H as [? | [? | [? | [Hs | [Hs | (table & Hs & Hn)]]]]]; try done.
  - unfold table_of. by rewrite Hs.
  - unfold table_of. by rewrite Hs.
  - unfold table_of. rewrite Hs.
    by rewrite (proj2 (edit_first_None table c nc (n0 :: nn) (m0 :: nm)) Hn).
Qed.

Lemma EditDatabase_refuses_witness :
  EditDatabase padded_edit_world (py "None") (py "Edit") (py "Four") (py "Co")
  = (false, padded_edit_world)
  ∧ EditDatabase broken_world (py "Dupl") (py "Edit") (py "Four") (py "Co")
    = (false, broken_world).
Proof.
  split.
  - apply (EditDatabase_refuses padded_edit_world (py "None") (py "Edit")
             (py "Four") (py "Co")).
    do 5 right. exists padded_edit_table. split; [reflexivity |].
    apply Forall_forall.
    repeat constructor; intros H; vm_compute in H; discriminate.
  - apply (EditDatabase_refuses broken_world (py "Dupl") (py "Edit")
             (py "Four") (py "Co")).
    do 4 right. left. reflexivity.
Defined.

(** ** The comparator, further *)

Section CompareShape.

Variable w : world.
Variables file1_path file2_path : str.
Variable byteCount : Z.
Variables c1 m1 n1 c2 m2 n2 : option str.

Hypothesis Hc1 : GetCode w file1_path = Return c1.
Hypothesis Hm1 : GetCompany w file1_path = Return m1.
Hypothesis Hn1 : GetName w file1_path = Return n1.
Hypothesis Hc2 : GetCode w file2_path = Return c2.
Hypothesis Hm2 : GetCompany w file2_path = Return m2.
Hypothesis Hn2 : GetName w file2_path = Return n2.

Lemma Compare_invalid :
  _read_header w file1_path = None ∨ _read_header w file2_path = None →
  Compare w file1_path file2_path byteCount
  = Return (blank_comparison (Identity c1 m1 n1) (Identity c2 m2 n2)).
Proof.
  intros H. unfold Compare. rewrite Hc1, Hm1, Hn1, Hc2, Hm2, Hn2.
  cbn [mbind outcome_bind].
  destruct H as [-> | ->]; cbn [no_header orb]; [done |].
  by rewrite orb_true_r.
Qed.

Lemma Compare_valid h1 h2 A B :
  _read_header w file1_path = Some h1 →
  _read_header w file2_path = Some h2 →
  files w !! file1_path = Some (Regular A) →
  files w !! file2_path = Some (Regular B) →
  Compare w file1_path file2_path byteCount
  = Return (add_differences
              (set_same_flags
                 (blank_comparison (Identity c1 m1 n1) (Identity c2 m2 n2)))
              (byte_differences 0 (take (compared A B byteCount) A)
                                  (take (compared A B byteCount) B))).
Proof.
  intros Hh1 Hh2 HA HB. unfold Compare.
  rewrite Hc1, Hm1, Hn1, Hc2, Hm2, Hn2. cbn [mbind outcome_bind].
  rewrite (no_header_Some _ _ _ Hh1), (no_header_Some _ _ _ Hh2).
  unfold read_all. rewrite HA, HB. cbn [mbind outcome_bind orb].
  fold (compared A B byteCount).
  rewrite (compare_loop A B (compared A B byteCount) 0)
    by (unfold compared; lia).
  by rewrite !drop_0.
Qed.

End CompareShape.

Section Differences.


Lemma byte_differences_nil A : ∀ B s,
  length A = length B →
  byte_differences s A B = [] ↔ A = B.
Proof.
  induction A as [|a A IH]; intros [|b B] s Hl; cbn in *; try done.
  case_decide as Hab; cbn.
  - subst b. rewrite IH by lia. split; [by intros -> | by intros [= ->]].
  - split; [done | by intros [= ? _]].
Qed.




End Differences.

Lemma Compare_valid_loads w file1_path file2_path byteCount h1 h2 A B :
  store_loads w →
  _read_header w file1_path = Some h1 →
  _read_header w file2_path = Some h2 →
  files w !! file1_path = Some (Regular A) →
  files w !! file2_path = Some (Regular B) →
  ∃ c1 m1 n1 c2 m2 n2,
    GetCode w file1_path = Return c1
    ∧ GetCompany w file1_path = Return m1
    ∧ GetName w file1_path = Return n1
    ∧ GetCode w file2_path = Return c2
    ∧ GetCompany w file2_path = Return m2
    ∧ GetName w file2_path = Return n2
    ∧ Compare w file1_path file2_path byteCount
      = Return (add_differences
                  (set_same_flags
                     (blank_comparison (Identity c1 m1 n1)
                                       (Identity c2 m2 n2)))
                  (byte_differences 0 (take (compared A B byteCount) A)
                                      (take (compared A B byteCount) B))).
Proof.
  intros Hs Hh1 Hh2 HA HB.
  destruct (resolve_returns code w file1_path Hs) as [c1 Hc1].
  destruct (resolve_returns company w file1_path Hs) as [m1 Hm1].
  destruct (resolve_returns name w file1_path Hs) as [n1 Hn1].
  destruct (resolve_returns code w file2_path Hs) as [c2 Hc2].
  destruct (resolve_returns company w file2_path Hs) as [m2 Hm2].
  destruct (resolve_returns name w file2_path Hs) as [n2 Hn2].
  exists c1, m1, n1, c2, m2, n2. repeat split; try done.
  by eapply Compare_valid.
Qed.

(** X18. When one of the two files has no valid header, Compare compares
    nothing: the difference list is empty, the count is 0 and the three
    "same" flags are False (also when a file is compared with itself),
    while the identity fields hold what GetCode, GetCompany and GetName
    return for each file.  This needs a signature table that loads, or both
    files to be invalid, in which case signatures.json is not opened at
    all. *)
Theorem Compare_invalid_file w file1_path file2_path byteCount :
  _read_header w file1_path = None ∨ _read_header w file2_path = None →
  store_loads w
  ∨ (_read_header w file1_path = None ∧ _read_header w file2_path = None) →
  ∃ r,
    Compare w file1_path file2_path byteCount = Return r
    ∧ differences r = []
    ∧ total_different_bytes r = 0%Z
    ∧ same_code r = false ∧ same_company r = false ∧ same_plugin r = false
    ∧ GetCode w file1_path = Return (id_code (file1 r))
    ∧ GetCompany w file1_path = Return (id_company (file1 r))
    ∧ GetName w file1_path = Return (id_name (file1 r))
    ∧ GetCode w file2_path = Return (id_code (file2 r))
    ∧ GetCompany w file2_path = Return (id_company (file2 r))
    ∧ GetName w file2_path = Return (id_name (file2 r)).
Proof.
  intros Hinv Hs.
  assert (Hret : ∀ field,
            (∃ x, resolve field w file1_path = Return x)
            ∧ (∃ x, resolve field w file2_path = Return x)).
  { intros field. destruct Hs as [Hs | [H1 H2]].
    - split; by apply resolve_returns.
    - split; exists None; apply resolve_absent; auto. }
  destruct (Hret code) as [[c1 Hc1] [c2 Hc2]].
  destruct (Hret company) as [[m1 Hm1] [m2 Hm2]].
  destruct (Hret name) as [[n1 Hn1] [n2 Hn2]].
  eexists. split; [by eapply Compare_invalid |]. by cbn.
Qed.

Lemma Compare_invalid_file_witness :
  ∃ r,
    Compare stray_world (py "notes.txt") (py "notes.txt") 100 = Return r
    ∧ differences r = [] ∧ same_code r = false.
Proof.
  destruct (Compare_invalid_file stray_world (py "notes.txt")
              (py "notes.txt") 100)
    as (r & Hr & Hd & _ & Hc & _).
  - left. vm_compute. reflexivity.
  - right. split; vm_compute; reflexivity.
  - by exists r.
Defined.

(** X19. Comparing a valid preset with itself finds no difference and sets
    the three "same" flags, whatever the byte count and whatever the table
    holds, as long as it loads. *)
Theorem Compare_same_file w file_path byteCount header :
  store_loads w →
  _read_header w file_path = Some header →
  ∃ r,
    Compare w file_path file_path byteCount = Return r
    ∧ differences r = []
    ∧ total_different_bytes r = 0%Z
    ∧ same_code r = true ∧ same_company r = true ∧ same_plugin r = true
    ∧ file1 r = file2 r.
Proof.
  intros Hs Hh.
  pose proof Hh as (A & HA & _)%read_header_Some.
  destruct (Compare_valid_loads w file_path file_path byteCount
              header header A A Hs Hh Hh HA HA)
    as (c1 & m1 & n1 & c2 & m2 & n2 & Hc1 & Hm1 & Hn1 & Hc2 & Hm2 & Hn2 & ->).
  rewrite Hc1 in Hc2. rewrite Hm1 in Hm2. rewrite Hn1 in Hn2.
  injection Hc2 as <-. injection Hm2 as <-. injection Hn2 as <-.
  eexists. split; [reflexivity |].
  cbn [differences total_different_bytes add_differences set_same_flags
       blank_comparison same_code same_company same_plugin file1 file2
       id_code id_company id_name app].
  rewrite (proj2 (byte_differences_nil _ _ 0 eq_refl) eq_refl).
  rewrite !bool_decide_eq_true_2 by done. done.
Qed.

Lemma Compare_same_file_witness :
  ∃ r,
    Compare loose_world (py "p.fxp") (py "p.fxp") 100 = Return r
    ∧ differences r = [] ∧ same_plugin r = true.
Proof.
  destruct (Compare_same_file loose_world (py "p.fxp") 100
              (take 20 loose_preset))
    as (r & Hr & Hd & _ & _ & _ & Hp & _).
  - repeat constructor; vm_compute; eauto.
  - vm_compute. reflexivity.
  - by exists r.
Defined.









Section ResolveShape.

Variables f g : plugin → str.

(** The resolvers end alike: all with a value, or all with the same
    exception. *)
Lemma resolve_shape w file_path :
  match resolve f w file_path with
  | Return x =>
      ∃ y, resolve g w file_path = Return y ∧ (x = None ↔ y = None)
  | Raise e =>
      resolve g w file_path = Raise e
      ∧ (e = JSONDecodeError ∨ e = UnicodeEncodeError)
      ∧ is_Some (_read_header w file_path)
      ∧ ¬ store_loads w
  end.
Proof.
  destruct (_read_header w file_path) as [header|] eqn:Hh;
    [| rewrite !resolve_absent by auto; by exists None].
  unfold store_loads.
  destruct (signatures_json w) as [| |table] eqn:Ht.
  - rewrite !resolve_absent by auto. by exists None.
  - unfold resolve, _load_signatures, json_load. rewrite Hh, Ht.
    apply read_header_length in Hh as [Hl _].
    destruct header; [cbn in Hl; lia |]. cbn.
    split; [done |]. split; [by left |]. split; [by eexists | by intros []].
  - rewrite !(resolve_table _ header w file_path table) by done.
    pose proof (scan_fields header f g table) as H.
    destruct (scan f header table) as [[x|]|e].
    + destruct H as (i & r & _ & _ & _ & _ & ->). by eexists.
    + destruct H as (_ & _ & ->). by exists None.
    + destruct H as (-> & (i & r & Hi & Hr & _) & ->).
      split; [done |]. split; [by right |]. split; [by eexists |].
      intros He.
      assert (Hr' : is_Some (Py.encode_opt (stripped_code r))).
      { apply (proj1 (Forall_forall _ _) He r).
        by eapply list_elem_of_lookup_2. }
      rewrite Hr in Hr'. by destruct Hr'.
Qed.

End ResolveShape.

(** X24. Two valid presets that the table does not know count as the same
    plugin: when GetCode returns None for both files, Compare sets
    same_code, same_company and same_plugin to True and leaves the six
    identity fields None. *)
Theorem Compare_unknown_presets w file1_path file2_path byteCount h1 h2 :
  _read_header w file1_path = Some h1 →
  _read_header w file2_path = Some h2 →
  GetCode w file1_path = Return None →
  GetCode w file2_path = Return None →
  ∃ r,
    Compare w file1_path file2_path byteCount = Return r
    ∧ same_code r = true ∧ same_company r = true ∧ same_plugin r = true
    ∧ file1 r = Identity None None None
    ∧ file2 r = Identity None None None.
Proof.
  intros Hh1 Hh2 Hc1 Hc2.
  pose proof (resolve_shape code company w file1_path) as Hm1.
  pose proof (resolve_shape code name w file1_path) as Hn1.
  pose proof (resolve_shape code company w file2_path) as Hm2.
  pose proof (resolve_shape code name w file2_path) as Hn2.
  unfold GetCode in Hc1, Hc2.
  rewrite Hc1 in Hm1, Hn1. rewrite Hc2 in Hm2, Hn2.
  destruct Hm1 as (m1 & Hm1 & [Em1 _]), Hn1 as (n1 & Hn1 & [En1 _]).
  destruct Hm2 as (m2 & Hm2 & [Em2 _]), Hn2 as (n2 & Hn2 & [En2 _]).
  rewrite Em1 in Hm1 by done. rewrite En1 in Hn1 by done.
  rewrite Em2 in Hm2 by done. rewrite En2 in Hn2 by done.
  pose proof Hh1 as (A & HA & _)%read_header_Some.
  pose proof Hh2 as (B & HB & _)%read_header_Some.
  eexists. split.
  { by eapply (Compare_valid w file1_path file2_path byteCount
                 None None None None None None). }
  done.
Qed.

Lemma Compare_unknown_presets_witness :
  ∃ r,
    Compare compare_world (py "l.fxp") (py "r.fxb") 10 = Return r
    ∧ same_plugin r = true.
Proof.
  destruct (Compare_unknown_presets compare_world (py "l.fxp") (py "r.fxb")
              10 left_preset right_preset)
    as (r & Hr & _ & _ & Hp & _).
  - vm_compute. reflexivity.
  - vm_compute. reflexivity.
  - vm_compute. reflexivity.
  - vm_compute. reflexivity.
  - by exists r.
Defined.

(** X25. Compare adds no failure of its own to those of the lookups.  When
    GetCode raises for the first file, Compare raises the same exception;
    when GetCode, GetCompany and GetName return for both files, Compare
    returns a result that carries their six answers as identity fields and
    whose total_different_bytes is the length of its difference list,
    whatever the two paths are. *)
Theorem Compare_follows_lookups w file1_path file2_path byteCount :
  (∀ e, GetCode w file1_path = Raise e →
        Compare w file1_path file2_path byteCount = Raise e)
  ∧ (∀ c1 m1 n1 c2 m2 n2,
       GetCode w file1_path = Return c1 →
       GetCompany w file1_path = Return m1 →
       GetName w file1_path = Return n1 →
       GetCode w file2_path = Return c2 →
       GetCompany w file2_path = Return m2 →
       GetName w file2_path = Return n2 →
       ∃ r,
         Compare w file1_path file2_path byteCount = Return r
         ∧ file1 r = Identity c1 m1 n1
         ∧ file2 r = Identity c2 m2 n2
         ∧ total_different_bytes r = Z.of_nat (length (differences r))).
Proof.
  split.
  - intros e H. unfold Compare. by rewrite H.
  - intros c1 m1 n1 c2 m2 n2 Hc1 Hm1 Hn1 Hc2 Hm2 Hn2.
    destruct (_read_header w file1_path) as [h1|] eqn:Hh1;
      [| eexists; split; [eapply Compare_invalid; eauto | done]].
    destruct (_read_header w file2_path) as [h2|] eqn:Hh2;
      [| eexists; split; [eapply Compare_invalid; eauto | done]].
    pose proof Hh1 as (A & HA & _)%read_header_Some.
    pose proof Hh2 as (B & HB & _)%read_header_Some.
    eexists. split; [by eapply Compare_valid |]. done.
Qed.

Lemma Compare_follows_lookups_witness :
  Compare broken_world (py "p.fxp") (py "p.fxp") 10 = Raise JSONDecodeError
  ∧ ∃ r,
      Compare compare_world (py "l.fxp") (py "r.fxb") 10 = Return r
      ∧ file1 r = Identity None None None
      ∧ total_different_bytes r = Z.of_nat (length (differences r)).
Proof.
  split.
  - apply (proj1 (Compare_follows_lookups broken_world (py "p.fxp")
                    (py "p.fxp") 10)).
    reflexivity.
  - destruct (proj2 (Compare_follows_lookups compare_world (py "l.fxp")
                       (py "r.fxb") 10)
                    None None None None None None)
      as (r & Hr & H1 & _ & Hn); try reflexivity.
    by exists r.
Defined.

Section Trimmed.

Lemma length_lstrip s : (length (Py.lstrip s) ≤ length s)%nat.
Proof.
  induction s as [|c s IH]; [done |]. cbn.
  destruct (Py.isspace c); cbn; lia.
Qed.

Lemma length_strip s : (length (Py.strip s) ≤ length s)%nat.
Proof.
  unfold Py.strip, Py.rstrip. rewrite length_rev.
  pose proof (length_lstrip (rev (Py.lstrip s))) as H.
  rewrite length_rev in H. pose proof (length_lstrip s). lia.
Qed.

Lemma trimmed_well c n m : (length c ≤ 4)%nat → well_trimmed (trimmed c n m).
Proof.
  intros Hc. unfold well_trimmed, trimmed. cbn [code name company].
  rewrite !strip_strip. repeat split. pose proof (length_strip c). lia.
Qed.

End Trimmed.

(** X26. The three operations on the table keep it trimmed: if no field of
    any record has surrounding whitespace and no code has more than four
    characters, the same holds after AddToDatabase, RemoveFromDatabase and
    EditDatabase, whatever their arguments and whether they succeed or not.
    In such a table the trimmed code that the lookups compare is the stored
    code itself. *)
Theorem table_stays_trimmed w :
  Forall well_trimmed (table_of w) →
  (∀ c n m, Forall well_trimmed (table_of (AddToDatabase w c n m).2))
  ∧ (∀ c, Forall well_trimmed (table_of (RemoveFromDatabase w c).2))
  ∧ (∀ c nc nn nm,
       Forall well_trimmed (table_of (EditDatabase w c nc nn nm).2))
  ∧ (∀ r, r ∈ table_of w → stripped_code r = code r).
Proof.
  intros Hw. split; [| split; [| split]].
  - intros c n m.
    destruct (decide (length c = 4%nat)) as [Hc|];
      [| by rewrite AddToDatabase_rejects by auto].
    destruct (AddToDatabase_outcome w c n m) as [-> | ->]; [done |].
    cbn [snd]. rewrite table_of_Table. apply Forall_app. split; [done |].
    constructor; [| constructor]. apply trimmed_well. lia.
  - intros c. rewrite RemoveFromDatabase_outcome. case_decide; [| done].
    cbn [snd]. rewrite table_of_Table. apply Forall_forall.
    intros r [_ Hr]%list_elem_of_filter.
    by apply (proj1 (Forall_forall _ _) Hw).
  - intros c nc nn nm.
    destruct (decide (length nc = 4%nat)) as [Hc|];
      [| by rewrite EditDatabase_guard by auto].
    destruct nn as [|n0 nn]; [by rewrite EditDatabase_guard by auto |].
    destruct nm as [|m0 nm]; [by rewrite EditDatabase_guard by auto |].
    rewrite EditDatabase_body by done.
    destruct (edit_first _ _ _ _ _) as [data'|] eqn:E; [| done].
    apply edit_first_Some in E as (i & old & _ & _ & _ & ->).
    cbn [snd]. rewrite table_of_Table. apply Forall_insert; [done |].
    apply trimmed_well. lia.
  - intros r Hr. by apply (proj1 (Forall_forall _ _) Hw) in Hr as [? _].
Qed.

Lemma table_stays_trimmed_witness :
  Forall well_trimmed
         (table_of (AddToDatabase edit_world (py " Ab ") (py " Name ")
                                  (py "Maker  ")).2).
Proof.
  refine (proj1 (table_stays_trimmed edit_world _) _ _ _).
  repeat constructor.
Defined.
